(** * Field locator engine of [testingv2.py]

    A shallow embedding of [extract_invoice_data] (src/testingv2.py) and
    the properties of its specification.

    Cells are text.  The file models text as [string] (one [ascii] per
    character), so the Python built-ins below are the restrictions of
    [str.strip], [str.upper], [re.match] and [float] to ASCII text. *)

From Stdlib Require Import String Ascii List Bool Arith ZArith NArith Lia.
Import ListNotations.

Local Open Scope string_scope.
Local Open Scope list_scope.
Local Open Scope nat_scope.

(** ** Python built-ins used by the engine *)

Module Py.

Definition ord (c : ascii) : nat := nat_of_ascii c.

(** [c.isdigit()] on ASCII, the class [\d] of [re]. *)
Definition isdigit (c : ascii) : bool := (48 <=? ord c) && (ord c <=? 57).

(** Characters removed by [str.strip()]: TAB..CR, FS..US and the space. *)
Definition isspace (c : ascii) : bool :=
  ((9 <=? ord c) && (ord c <=? 13)) || ((28 <=? ord c) && (ord c <=? 32)).

Definition is_empty (s : string) : bool :=
  match s with EmptyString => true | String _ _ => false end.

(** Truth value of a [str]: [if s:] holds for the non-empty strings. *)
Definition truthy (s : string) : bool := negb (is_empty s).

Fixpoint lstrip (s : string) : string :=
  match s with
  | String c r => if isspace c then lstrip r else s
  | EmptyString => EmptyString
  end.

Fixpoint rstrip (s : string) : string :=
  match s with
  | String c r =>
      let r' := rstrip r in
      if isspace c && is_empty r' then EmptyString else String c r'
  | EmptyString => EmptyString
  end.

(** [s.strip()] *)
Definition strip (s : string) : string := rstrip (lstrip s).

Definition toupper (c : ascii) : ascii :=
  if (97 <=? ord c) && (ord c <=? 122) then ascii_of_nat (ord c - 32) else c.

(** [s.upper()] *)
Fixpoint upper (s : string) : string :=
  match s with
  | String c r => String (toupper c) (upper r)
  | EmptyString => EmptyString
  end.

(** [s.startswith(p)] *)
Definition startswith (p s : string) : bool := String.prefix p s.

(** [sub in s] *)
Fixpoint contains (sub s : string) : bool :=
  String.prefix sub s ||
  match s with
  | String _ r => contains sub r
  | EmptyString => false
  end.

(** [s.replace(old, '')]: the occurrences of [old] are found from the
    left and do not overlap; [skip] counts the characters of the
    occurrence being dropped. *)
Fixpoint remove_from (old : string) (skip : nat) (s : string) : string :=
  match s with
  | String c r =>
      match skip with
      | S k => remove_from old k r
      | O =>
          if String.prefix old s
          then remove_from old (String.length old - 1) r
          else String c (remove_from old 0 r)
      end
  | EmptyString => EmptyString
  end.

Definition replace_with_empty (old s : string) : string :=
  if is_empty old then s else remove_from old 0 s.

(** [s.split(' ')[0]]: the text before the first space. *)
Fixpoint split_space_head (s : string) : string :=
  match s with
  | String c r =>
      if Ascii.eqb c " " then EmptyString else String c (split_space_head r)
  | EmptyString => EmptyString
  end.

(** [' '.join(xs)] *)
Definition join_space (xs : list string) : string := String.concat " " xs.

(** [re.match(r'[\d,]+\.?\d*', s)] is a match object exactly when [s]
    starts with a digit or a comma: [\.?] and [\d*] match the empty
    text, and [re.match] does not look at what follows the match. *)
Definition re_match_number (s : string) : bool :=
  match s with
  | String c _ => isdigit c || Ascii.eqb c ","
  | EmptyString => false
  end.

Fixpoint all_digits (n : nat) (s : string) : option string :=
  match n with
  | O => Some s
  | S k =>
      match s with
      | String c r => if isdigit c then all_digits k r else None
      | EmptyString => None
      end
  end.

Definition expect (c : ascii) (s : string) : option string :=
  match s with
  | String d r => if Ascii.eqb c d then Some r else None
  | EmptyString => None
  end.

Definition bind {A B} (o : option A) (k : A -> option B) : option B :=
  match o with Some a => k a | None => None end.

(** [re.match(r'\d{4}-\d{2}-\d{2}', s)] *)
Definition re_match_date (s : string) : bool :=
  match bind (all_digits 4 s) (fun s1 =>
        bind (expect "-" s1) (fun s2 =>
        bind (all_digits 2 s2) (fun s3 =>
        bind (expect "-" s3) (fun s4 => all_digits 2 s4)))) with
  | Some _ => true
  | None => false
  end.

(** *** [float(s)]

    CPython's [float] on a [str]: underscores between digits are
    removed, white space around the text is skipped, and the rest must
    be one decimal literal or a spelling of infinity or NaN.  It raises
    [ValueError] ([None] here) on anything else and on nothing else: a
    literal out of the range of a double is an infinity.

    The value of a decimal literal is kept exact, [digits * 10 ^ exp10].
    The engine only compares it with 100; [float] rounds to the nearest
    double, ties to even, and 100 has an even significand and the next
    double is [100 + 2^-46], so [float(s) > 100] holds exactly when the
    literal is above [100 + 2^-47]. *)

Inductive pyfloat : Type :=
| PyInf (negative : bool)
| PyNan
| PyDec (negative : bool) (digits : N) (exp10 : Z).

(** White space of the C locale, the one [float] skips in ASCII text. *)
Definition c_isspace (c : ascii) : bool :=
  ((9 <=? ord c) && (ord c <=? 13)) || (ord c =? 32).

Fixpoint c_lstrip (s : string) : string :=
  match s with
  | String c r => if c_isspace c then c_lstrip r else s
  | EmptyString => EmptyString
  end.

Fixpoint c_rstrip (s : string) : string :=
  match s with
  | String c r =>
      let r' := c_rstrip r in
      if c_isspace c && is_empty r' then EmptyString else String c r'
  | EmptyString => EmptyString
  end.

Fixpoint remove_underscores (prev : ascii) (s : string) : option string :=
  match s with
  | String c r =>
      if Ascii.eqb c "_" then
        if isdigit prev then remove_underscores c r else None
      else if Ascii.eqb prev "_" && negb (isdigit c) then None
      else option_map (String c) (remove_underscores c r)
  | EmptyString => if Ascii.eqb prev "_" then None else Some EmptyString
  end.

Definition read_sign (s : string) : bool * string :=
  match s with
  | String c r =>
      if Ascii.eqb c "-" then (true, r)
      else if Ascii.eqb c "+" then (false, r)
      else (false, s)
  | EmptyString => (false, s)
  end.

Definition digit_value (c : ascii) : N := N.of_nat (ord c - 48).

(** Reads the digits at the front of [s]: their value on top of [acc],
    how many there are on top of [n], and the text after them. *)
Fixpoint read_digits (acc : N) (n : nat) (s : string) : N * nat * string :=
  match s with
  | String c r =>
      if isdigit c then read_digits (10 * acc + digit_value c) (S n) r
      else (acc, n, s)
  | EmptyString => (acc, n, s)
  end.

Definition read_exponent (s : string) : Z * string :=
  match s with
  | String c r =>
      if Ascii.eqb c "e" || Ascii.eqb c "E" then
        let '(neg, r1) := read_sign r in
        let '(v, n, r2) := read_digits 0 0 r1 in
        if n =? 0 then (0%Z, s)
        else ((if neg then - Z.of_N v else Z.of_N v)%Z, r2)
      else (0%Z, s)
  | EmptyString => (0%Z, s)
  end.

(** The decimal literal at the front of [s] and the text after it;
    [None] when there is no digit. *)
Definition strtod (s : string) : option (pyfloat * string) :=
  let '(neg, s1) := read_sign s in
  let '(m1, n1, s2) := read_digits 0 0 s1 in
  let '(m, nfrac, ndigits, s3) :=
    match expect "." s2 with
    | Some r => let '(m2, n2, r') := read_digits m1 0 r in (m2, n2, n1 + n2, r')
    | None => (m1, 0, n1, s2)
    end in
  if ndigits =? 0 then None
  else
    let '(e, s4) := read_exponent s3 in
    Some (PyDec neg m (e - Z.of_nat nfrac), s4).

Definition tolower (c : ascii) : ascii :=
  if (65 <=? ord c) && (ord c <=? 90) then ascii_of_nat (ord c + 32) else c.

(** Drops the lower-case word [w] from the front of [s], whatever the
    case of the letters of [s]. *)
Fixpoint case_insensitive_match (w s : string) : option string :=
  match w with
  | EmptyString => Some s
  | String a w' =>
      match s with
      | String c r =>
          if Ascii.eqb (tolower c) a then case_insensitive_match w' r else None
      | EmptyString => None
      end
  end.

Definition parse_inf_or_nan (s : string) : option (pyfloat * string) :=
  let '(neg, s1) := read_sign s in
  match case_insensitive_match "inf" s1 with
  | Some r =>
      match case_insensitive_match "inity" r with
      | Some r' => Some (PyInf neg, r')
      | None => Some (PyInf neg, r)
      end
  | None =>
      match case_insensitive_match "nan" s1 with
      | Some r => Some (PyNan, r)
      | None => None
      end
  end.

Definition float_from_string_inner (s : string) : option pyfloat :=
  let s1 := c_rstrip (c_lstrip s) in
  if is_empty s1 then None
  else
    let parsed :=
      match strtod s1 with
      | Some p => Some p
      | None => parse_inf_or_nan s1
      end in
    match parsed with
    | Some (x, EmptyString) => Some x
    | _ => None
    end.

(** [float(s)]; [None] stands for [ValueError]. *)
Definition float (s : string) : option pyfloat :=
  bind (remove_underscores zero s) float_from_string_inner.

(** [x > 100] *)
Definition gt_100 (x : pyfloat) : bool :=
  match x with
  | PyInf negative => negb negative
  | PyNan => false
  | PyDec true _ _ => false
  | PyDec false m e =>
      let num := (Z.of_N m * 10 ^ Z.max e 0 * 2 ^ 47)%Z in
      let den := (10 ^ Z.max (- e) 0)%Z in
      ((100 * 2 ^ 47 + 1) * den <? num)%Z
  end.

End Py.

(** ** Data model *)

(** A sheet read with [header=None] and turned to text by
    [df.astype(str)]: rows of text cells. *)
Definition Row : Type := list string.
Definition Grid : Type := list Row.

(** The keys of the [result] dictionary. *)
Record InvoiceRecord : Type := {
  file_name : string;
  sheet_name : string;
  invoice_number : string;
  invoice_date : string;
  company_name : string;
  vendor_code : string;
  po_number : string;
  po_date : string;
  gstin : string;
  total_value : string;
  gross_total_after_tax : string;
  extraction_status : string
}.

(** The keys the scan assigns. *)
Inductive Field : Type :=
| InvoiceNumber | InvoiceDate | CompanyName | VendorCode | PoNumber
| PoDate | Gstin | TotalValue | GrossTotalAfterTax.

Definition get_field (f : Field) (r : InvoiceRecord) : string :=
  match f with
  | InvoiceNumber => invoice_number r
  | InvoiceDate => invoice_date r
  | CompanyName => company_name r
  | VendorCode => vendor_code r
  | PoNumber => po_number r
  | PoDate => po_date r
  | Gstin => gstin r
  | TotalValue => total_value r
  | GrossTotalAfterTax => gross_total_after_tax r
  end.

(** [result[f] = v] *)
Definition set_field (f : Field) (v : string) (r : InvoiceRecord)
  : InvoiceRecord :=
  let 'Build_InvoiceRecord fn sn inum idate cname vcode pnum pdate gst tot gross st := r in
  match f with
  | InvoiceNumber => Build_InvoiceRecord fn sn v idate cname vcode pnum pdate gst tot gross st
  | InvoiceDate => Build_InvoiceRecord fn sn inum v cname vcode pnum pdate gst tot gross st
  | CompanyName => Build_InvoiceRecord fn sn inum idate v vcode pnum pdate gst tot gross st
  | VendorCode => Build_InvoiceRecord fn sn inum idate cname v pnum pdate gst tot gross st
  | PoNumber => Build_InvoiceRecord fn sn inum idate cname vcode v pdate gst tot gross st
  | PoDate => Build_InvoiceRecord fn sn inum idate cname vcode pnum v gst tot gross st
  | Gstin => Build_InvoiceRecord fn sn inum idate cname vcode pnum pdate v tot gross st
  | TotalValue => Build_InvoiceRecord fn sn inum idate cname vcode pnum pdate gst v gross st
  | GrossTotalAfterTax => Build_InvoiceRecord fn sn inum idate cname vcode pnum pdate gst tot v st
  end.

Definition Field_eqb (f g : Field) : bool :=
  match f, g with
  | InvoiceNumber, InvoiceNumber | InvoiceDate, InvoiceDate
  | CompanyName, CompanyName | VendorCode, VendorCode
  | PoNumber, PoNumber | PoDate, PoDate | Gstin, Gstin
  | TotalValue, TotalValue | GrossTotalAfterTax, GrossTotalAfterTax => true
  | _, _ => false
  end.

(** One assignment [result[f] = v] made by the scan. *)
Definition Commit : Type := (Field * string)%type.

(** The dictionary [result] while the scan runs, with the assignments
    made so far, oldest first. *)
Record Scan : Type := {
  result : InvoiceRecord;
  commits : list Commit
}.

Definition assign (f : Field) (v : string) (s : Scan) : Scan :=
  {| result := set_field f v (result s); commits := commits s ++ [(f, v)] |}.

(** The record obtained from [r] by the assignments [l], in order. *)
Definition replay (l : list Commit) (r : InvoiceRecord) : InvoiceRecord :=
  fold_left (fun acc c => set_field (fst c) (snd c) acc) l r.

(** A computation that may raise an exception with message [message]. *)
Inductive outcome (A : Type) : Type :=
| Ok (a : A)
| Raise (message : string).

Arguments Ok {A} a.
Arguments Raise {A} message.

(** ** The scan of [extract_invoice_data] *)

(** Lines 57-66: column 5 of the row. *)
Definition invoice_number_and_date (row_values : Row) (s : Scan) : Scan :=
  if 5 <? length row_values then
    let cell_value := Py.strip (nth 5 row_values "") in
    let s1 :=
      if Py.contains "SSH" cell_value && Py.contains "/" cell_value
      then assign InvoiceNumber cell_value s
      else s in
    if Py.re_match_date cell_value then
      if Py.is_empty (invoice_date (result s1))
      then assign InvoiceDate (Py.split_space_head cell_value) s1
      else s1
    else s1
  else s.

(** The cells at [range(col_idx + 1, min(len(row_values), col_idx + 4))]. *)
Definition adjacent (row_values : Row) (col_idx : nat) : list string :=
  firstn 3 (skipn (col_idx + 1) row_values).

(** [re.match(r'[\d,]+\.?\d*', v) and len(v) > 2] *)
Definition looks_numeric (v : string) : bool :=
  Py.re_match_number v && (2 <? String.length v).

(** [float(v.replace(',', ''))] *)
Definition to_float (v : string) : option Py.pyfloat :=
  Py.float (Py.replace_with_empty "," v).

(** Lines 75-84: the cells after a gross-total label. *)
Fixpoint gross_total_scan (window : list string) (s : Scan) : Scan :=
  match window with
  | [] => s
  | cell :: rest =>
      let next_value := Py.strip cell in
      if looks_numeric next_value then
        match to_float next_value with
        | Some _ => assign GrossTotalAfterTax next_value s
        | None => gross_total_scan rest s
        end
      else gross_total_scan rest s
  end.

(** Lines 91-101: the cells after a total keyword. *)
Fixpoint total_value_scan (window : list string) (s : Scan) : Scan :=
  match window with
  | [] => s
  | cell :: rest =>
      let next_value := Py.strip cell in
      if looks_numeric next_value then
        match to_float next_value with
        | Some num_val =>
            if Py.gt_100 num_val && negb (Py.truthy (total_value (result s)))
            then assign TotalValue next_value s
            else total_value_scan rest s
        | None => total_value_scan rest s
        end
      else total_value_scan rest s
  end.

Definition total_keywords : list string :=
  ["TOTAL VALUE"; "TOTAL AMOUNT"; "TOTAL"; "AMOUNT"; "VALUE"].

(** Lines 88-103: the loop over [total_keywords] for one cell. *)
Fixpoint total_keyword_loop (keywords : list string) (cell_upper : string)
    (window : list string) (s : Scan) : Scan :=
  match keywords with
  | [] => s
  | keyword :: rest =>
      if Py.contains keyword cell_upper && negb (Py.contains "GROSS" cell_upper)
      then
        let s' := total_value_scan window s in
        if Py.truthy (total_value (result s')) then s'
        else total_keyword_loop rest cell_upper window s'
      else total_keyword_loop rest cell_upper window s
  end.

(** Lines 72-84: the gross-total label in one cell. *)
Definition gross_total_label (row_values : Row) (col_idx : nat)
    (cell_str : string) (s : Scan) : Scan :=
  if Py.contains "GROSS TOTAL AFTER" (Py.upper cell_str)
     && Py.contains "TAX" (Py.upper cell_str)
  then gross_total_scan (adjacent row_values col_idx) s
  else s.

(** Lines 105-122: a number in one of the last three columns. *)
Definition trailing_fallback (row_values : Row) (col_idx : nat)
    (cell_str : string) (s : Scan) : Scan :=
  if length row_values <=? col_idx + 3 then
    if looks_numeric cell_str then
      match to_float cell_str with
      | Some num_value =>
          if Py.gt_100 num_value then
            let row_text := Py.upper (Py.join_space row_values) in
            if Py.contains "GROSS" row_text && Py.contains "TOTAL" row_text
               && negb (Py.truthy (gross_total_after_tax (result s)))
            then assign GrossTotalAfterTax cell_str s
            else if existsb (fun keyword => Py.contains keyword row_text)
                      ["TOTAL"; "AMOUNT"; "VALUE"]
                    && negb (Py.truthy (total_value (result s)))
            then assign TotalValue cell_str s
            else s
          else s
      | None => s
      end
    else s
  else s.

(** Lines 69-122: the body of the loop over the cells of a row. *)
Definition scan_cell (row_values : Row) (col_idx : nat) (cell_value : string)
    (s : Scan) : Scan :=
  let cell_str := Py.strip cell_value in
  let s1 := gross_total_label row_values col_idx cell_str s in
  let s2 := total_keyword_loop total_keywords (Py.upper cell_str)
              (adjacent row_values col_idx) s1 in
  trailing_fallback row_values col_idx cell_str s2.

(** [for col_idx, cell_value in enumerate(row_values)], from [col_idx]. *)
Fixpoint scan_cells (row_values : Row) (col_idx : nat) (cells : list string)
    (s : Scan) : Scan :=
  match cells with
  | [] => s
  | cell_value :: rest =>
      scan_cells row_values (S col_idx) rest
        (scan_cell row_values col_idx cell_value s)
  end.

(** Lines 55-122: the body of the loop over the rows. *)
Definition scan_row (row_values : Row) (s : Scan) : Scan :=
  scan_cells row_values 0 row_values (invoice_number_and_date row_values s).

(** Lines 54-122: [for index, row in df.iterrows()]. *)
Definition scan_rows (df : Grid) (s : Scan) : Scan :=
  fold_left (fun acc row_values => scan_row row_values acc) df s.

(** Lines 136-148, on the row [row_values] is bound to. *)
Definition name_and_gstin (row_values : Row) (s : Scan) : Scan :=
  if 0 <? length row_values then
    let cell_value := Py.strip (nth 0 row_values "") in
    let s1 :=
      if Py.startswith "Name  :" cell_value then
        let company_name := Py.strip (Py.replace_with_empty "Name  :" cell_value) in
        if Py.truthy company_name then assign CompanyName company_name s else s
      else s in
    if Py.startswith "GSTIN :" cell_value then
      let gstin := Py.strip (Py.replace_with_empty "GSTIN :" cell_value) in
      if Py.truthy gstin && (10 <? String.length gstin)
      then assign Gstin gstin s1
      else s1
    else s1
  else s.

(** Lines 150-162, on the row [row_values] is bound to. *)
Definition vendor_and_po (row_values : Row) (s : Scan) : Scan :=
  if 5 <? length row_values then
    if 3 <? length row_values then
      let label := Py.strip (nth 3 row_values "") in
      let value := Py.strip (nth 5 row_values "") in
      if Py.contains "Vendor Code" label && Py.truthy value
      then assign VendorCode value s
      else if Py.contains "PO Date" label && Py.truthy value
      then assign PoNumber value s
      else if Py.contains "Purchase Order No" label && Py.truthy value then
        if Py.re_match_date value
        then assign PoDate (Py.split_space_head value) s
        else s
      else s
    else s
  else s.

(** Lines 124-162.  The block stands after the loop over the rows, so
    [row_values] is what the loop left: the last row of the grid, or an
    unbound name when the grid has no row.  The [try] of lines 127-134
    computes a value it drops, and its [except] catches everything. *)
Definition post_processing (df : Grid) (s : Scan) : outcome Scan :=
  if Py.truthy (gross_total_after_tax (result s))
     && negb (Py.truthy (total_value (result s)))
  then
    match rev df with
    | row_values :: _ => Ok (vendor_and_po row_values (name_and_gstin row_values s))
    | [] => Raise "local variable 'row_values' referenced before assignment"
    end
  else Ok s.

(** Lines 34-48. *)
Definition initial_result (file sheet : string) : InvoiceRecord :=
  {| file_name := file; sheet_name := sheet;
     invoice_number := ""; invoice_date := ""; company_name := "";
     vendor_code := ""; po_number := ""; po_date := ""; gstin := "";
     total_value := ""; gross_total_after_tax := "";
     extraction_status := "Success" |}.

Definition start (r : InvoiceRecord) : Scan := {| result := r; commits := [] |}.

(** Lines 54-162: the scan of a grid from the record [r]. *)
Definition locate_fields (df : Grid) (r : InvoiceRecord) : outcome Scan :=
  post_processing df (scan_rows df (start r)).

(** ** Sheet selection and the boundary of [extract_invoice_data] *)

(** Lines 22-26: the loop with its [break]; [None] is Python's [None]. *)
Fixpoint first_data_sheet (sheet_names : list string) : option string :=
  match sheet_names with
  | [] => None
  | sheet :: rest =>
      if negb (String.eqb sheet "book") && (3 <? String.length sheet)
      then Some sheet
      else first_data_sheet rest
  end.

(** [sheet_names[0]] *)
Definition first_sheet (sheet_names : list string) : outcome string :=
  match sheet_names with
  | sheet :: _ => Ok sheet
  | [] => Raise "list index out of range"
  end.

(** Lines 22-29. *)
Definition select_sheet (sheet_names : list string) : outcome string :=
  match first_data_sheet sheet_names with
  | Some target_sheet =>
      if Py.truthy target_sheet then Ok target_sheet
      else first_sheet sheet_names
  | None => first_sheet sheet_names
  end.

(** What the function gets from its libraries: [os.path.basename], the
    sheet names [load_workbook] finds in a file, and the text grid of
    [pd.read_excel(..., header=None)] after [astype(str)]. *)
Record Library : Type := {
  basename : string -> string;
  sheetnames : string -> outcome (list string);
  read_excel : string -> string -> outcome Grid
}.

Definition and_then {A B} (o : outcome A) (k : A -> outcome B) : outcome B :=
  match o with
  | Ok a => k a
  | Raise message => Raise message
  end.

(** Lines 16-164: the body of the [try]. *)
Definition try_body (lib : Library) (file_path : string)
  : outcome InvoiceRecord :=
  and_then (sheetnames lib file_path) (fun sheet_names =>
  and_then (select_sheet sheet_names) (fun target_sheet =>
  and_then (read_excel lib file_path target_sheet) (fun df =>
  and_then (locate_fields df (initial_result (basename lib file_path) target_sheet))
    (fun s => Ok (result s))))).

(** Lines 166-180: the record of the [except] branch. *)
Definition error_result (file message : string) : InvoiceRecord :=
  {| file_name := file; sheet_name := "Error";
     invoice_number := ""; invoice_date := ""; company_name := "";
     vendor_code := ""; po_number := ""; po_date := ""; gstin := "";
     total_value := ""; gross_total_after_tax := "";
     extraction_status := "Error: " ++ message |}.

Definition extract_invoice_data (lib : Library) (file_path : string)
  : InvoiceRecord :=
  match try_body lib file_path with
  | Ok r => r
  | Raise message => error_result (basename lib file_path) message
  end.

(** ** Properties of a scan *)

(** The text [v] passed the numeric test of lines 77-80: it starts with a
    digit or a comma, is longer than two characters, and [float] accepts
    it once its commas are removed. *)
Definition numeric_text (v : string) : Prop :=
  looks_numeric v = true /\ exists x, to_float v = Some x.

(** What the code has checked when it makes the assignment [c] on the
    record [r]. *)
Definition commit_ok (r : InvoiceRecord) (c : Commit) : Prop :=
  match fst c with
  | TotalValue =>
      total_value r = "" /\ looks_numeric (snd c) = true /\
      exists x, to_float (snd c) = Some x /\ Py.gt_100 x = true
  | GrossTotalAfterTax => numeric_text (snd c)
  | InvoiceDate => invoice_date r = ""
  | _ => True
  end.

(** The fields the loop over the rows assigns, and those of the block
    of lines 136-162. *)
Definition loop_field (f : Field) : Prop :=
  f = InvoiceNumber \/ f = InvoiceDate \/ f = TotalValue \/ f = GrossTotalAfterTax.

Definition header_field (f : Field) : Prop :=
  f = CompanyName \/ f = Gstin \/ f = VendorCode \/ f = PoNumber \/ f = PoDate.

(** The assignments of one cell of the loop over the cells. *)
Definition totals_commit (r : InvoiceRecord) (c : Commit) : Prop :=
  commit_ok r c /\ (fst c = TotalValue \/ fst c = GrossTotalAfterTax).

(** The assignments of lines 57-66. *)
Definition column5_commit (r : InvoiceRecord) (c : Commit) : Prop :=
  commit_ok r c /\ (fst c = InvoiceNumber \/ fst c = InvoiceDate).

(** The assignments of the loop over the rows, lines 54-122. *)
Definition loop_commit (r : InvoiceRecord) (c : Commit) : Prop :=
  commit_ok r c /\
  (fst c = InvoiceNumber \/ fst c = InvoiceDate \/
   fst c = TotalValue \/ fst c = GrossTotalAfterTax).

(** The assignments of lines 136-162. *)
Definition header_commit (r : InvoiceRecord) (c : Commit) : Prop :=
  commit_ok r c /\
  (fst c = CompanyName \/ fst c = Gstin \/ fst c = VendorCode \/
   fst c = PoNumber \/ fst c = PoDate).

(** [trace_ok P r l]: every assignment of [l], made in order from the
    record [r], satisfies [P] on the record it is made on. *)
Inductive trace_ok (P : InvoiceRecord -> Commit -> Prop)
  : InvoiceRecord -> list Commit -> Prop :=
| trace_nil : forall r, trace_ok P r []
| trace_cons : forall r c l,
    P r c -> trace_ok P (set_field (fst c) (snd c) r) l ->
    trace_ok P r (c :: l).

(** [s'] is [s] after some more assignments, each satisfying [P]. *)
Definition extends (P : InvoiceRecord -> Commit -> Prop) (s s' : Scan) : Prop :=
  exists l,
    commits s' = commits s ++ l /\
    result s' = replay l (result s) /\
    trace_ok P (result s) l.


(** [v] without its commas is a decimal literal.  (Its exact value is
    finite, even where the double [float] makes of it is not.) *)
Definition finite_number (v : string) : Prop :=
  exists negative digits exp10,
    to_float v = Some (Py.PyDec negative digits exp10).

(** Every text assigned to a numeric field is a finite number. *)
Definition numeric_commits_finite (df : Grid) : Prop :=
  forall file sheet s f v,
    locate_fields df (initial_result file sheet) = Ok s ->
    In (f, v) (commits s) ->
    f = TotalValue \/ f = GrossTotalAfterTax ->
    finite_number v.

(** The specification's two passes over a row: the first pass evaluates
    the label heuristics of every cell, the second the fall-back. *)
Fixpoint spec_label_cells (row_values : Row) (col_idx : nat)
    (cells : list string) (s : Scan) : Scan :=
  match cells with
  | [] => s
  | cell_value :: rest =>
      let cell_str := Py.strip cell_value in
      spec_label_cells row_values (S col_idx) rest
        (total_keyword_loop total_keywords (Py.upper cell_str)
           (adjacent row_values col_idx)
           (gross_total_label row_values col_idx cell_str s))
  end.

Fixpoint spec_fallback_cells (row_values : Row) (col_idx : nat)
    (cells : list string) (s : Scan) : Scan :=
  match cells with
  | [] => s
  | cell_value :: rest =>
      spec_fallback_cells row_values (S col_idx) rest
        (trailing_fallback row_values col_idx (Py.strip cell_value) s)
  end.

Definition spec_label_pass (row_values : Row) (s : Scan) : Scan :=
  spec_label_cells row_values 0 row_values s.

Definition spec_two_pass_row (row_values : Row) (s : Scan) : Scan :=
  spec_fallback_cells row_values 0 row_values (spec_label_pass row_values s).

(** When the label heuristics of a row have a candidate for a total
    field, the scan of the row leaves that candidate in the field. *)
Definition label_candidate_kept (row_values : Row) : Prop :=
  forall f, f = TotalValue \/ f = GrossTotalAfterTax ->
    let fresh := start (initial_result "" "") in
    get_field f (result (spec_label_pass row_values fresh)) <> "" ->
    get_field f (result (scan_row row_values fresh))
    = get_field f (result (spec_label_pass row_values fresh)).

(** The date portion of a text that starts with the date pattern: the
    ten characters the pattern matches. *)
Definition date_portion (s : string) : string := String.substring 0 10 s.

(** Every row with a date at the front of column 5 has its date portion,
    without what follows it, in [invoice_date] once the row is scanned. *)
Definition date_cell_committed (df : Grid) : Prop :=
  forall before row_values after file sheet,
    df = before ++ row_values :: after ->
    5 < length row_values ->
    Py.re_match_date (nth 5 row_values "") = true ->
    invoice_date
      (result (scan_rows (before ++ [row_values])
                 (start (initial_result file sheet))))
    = date_portion (Py.strip (nth 5 row_values "")).

(** The ways the body of the [try] can fail: the workbook cannot be
    opened, it has no sheet, or the chosen sheet cannot be read. *)
Definition fails_with (lib : Library) (file_path message : string) : Prop :=
  sheetnames lib file_path = Raise message \/
  (sheetnames lib file_path = Ok [] /\ message = "list index out of range") \/
  (exists sheet_names target_sheet,
      sheetnames lib file_path = Ok sheet_names /\
      select_sheet sheet_names = Ok target_sheet /\
      read_excel lib file_path target_sheet = Raise message).

(** The record of a failure names the sheet that was chosen. *)
Definition failure_keeps_sheet (lib : Library) (file_path : string) : Prop :=
  forall sheet_names target_sheet message,
    sheetnames lib file_path = Ok sheet_names ->
    select_sheet sheet_names = Ok target_sheet ->
    read_excel lib file_path target_sheet = Raise message ->
    sheet_name (extract_invoice_data lib file_path) = target_sheet.

(** A sheet name the selector keeps. *)
Definition data_sheet (sheet : string) : Prop :=
  sheet <> "book" /\ 3 < String.length sheet.

(** ** Sample inputs *)

(** [os.path.basename] of [posixpath]: the text after the last slash. *)
Fixpoint posix_basename (p : string) : string :=
  match p with
  | String _ r => if Py.contains "/" p then posix_basename r else p
  | EmptyString => EmptyString
  end.

(** A directory in which every workbook has the sheets [sheet_names] and
    reading a sheet gives [df]. *)
Definition uniform_library (sheet_names : list string) (df : outcome Grid)
  : Library :=
  {| basename := posix_basename;
     sheetnames := fun _ => Ok sheet_names;
     read_excel := fun _ _ => df |}.

Definition two_invoice_numbers : Grid :=
  [ [""; ""; ""; ""; ""; "SSH/001"];
    [""; ""; ""; ""; ""; "SSH/002"] ].


Definition two_dates : Grid :=
  [ [""; ""; ""; ""; ""; "2024-07-01 00:00:00"];
    [""; ""; ""; ""; ""; "2025-01-02 00:00:00"] ].

Definition two_totals : Grid :=
  [ ["TOTAL"; "250.00"; ""; ""; ""; ""];
    ["TOTAL"; "9,999.00"; ""; ""; ""; ""] ].

Definition name_only : Grid := [ ["Name  :ACME INDUSTRIES"] ].

Definition gstin_only : Grid := [ ["GSTIN :33ABCDE1234F1Z5"] ].

Definition vendor_code_row : Row := [""; ""; ""; "Vendor Code"; ""; "VC-102"].

Definition gross_total_row : Row := ["GROSS TOTAL AFTER TAX"; "123456.00"].

Definition number_before_label : Row := ["500.00"; "TOTAL"; "9999.00"].

Definition number_before_gross_label : Row :=
  ["500.00"; "GROSS TOTAL AFTER TAX"; "123456.00"].

Definition date_joined_to_time : Grid :=
  [ [""; ""; ""; ""; ""; "2024-07-01T10:00:00"] ].

Definition infinite_gross_total : Grid :=
  [ ["GROSS TOTAL AFTER TAX"; ",inf"; ""; ""; ""; ""] ].

Definition sample_invoice : Grid :=
  [ ["Name  :ACME INDUSTRIES"; ""; ""; "Vendor Code"; ""; "VC-102"];
    [""; ""; ""; ""; ""; "SSH/24-25/001"];
    [""; ""; ""; ""; ""; "2024-07-01 00:00:00"];
    ["TOTAL"; "250.00"; ""; ""; ""; ""];
    ["TOTAL AMOUNT"; "9,999.00"; ""; ""; ""; ""];
    ["GROSS TOTAL AFTER TAX"; "11,798.82"; ""; ""; ""; ""] ].

(** ** Candidates of a row *)

(** The text lines 58-61 take as invoice number in a row, if any. *)
Definition invoice_number_cell (row_values : Row) : option string :=
  if 5 <? length row_values then
    let cell_value := Py.strip (nth 5 row_values "") in
    if Py.contains "SSH" cell_value && Py.contains "/" cell_value
    then Some cell_value
    else None
  else None.

(** The text lines 63-66 take as invoice date in a row, if any. *)
Definition invoice_date_cell (row_values : Row) : option string :=
  if 5 <? length row_values then
    let cell_value := Py.strip (nth 5 row_values "") in
    if Py.re_match_date cell_value
    then Some (Py.split_space_head cell_value)
    else None
  else None.

(** The row, as the text [' '.join(row_values).upper()] of line 114,
    has one of the words the fall-back looks for. *)
Definition mentions_total (row_values : Row) : bool :=
  let row_text := Py.upper (Py.join_space row_values) in
  Py.contains "TOTAL" row_text || Py.contains "AMOUNT" row_text
  || Py.contains "VALUE" row_text.

(** No space in the text. *)
Fixpoint no_space (s : string) : bool :=
  match s with
  | String c r => negb (Ascii.eqb c " ") && no_space r
  | EmptyString => true
  end.



(** The assignment [c] gives a total field the trimmed text of a cell
    of the row. *)
Definition total_from_row (row_values : Row) (r : InvoiceRecord) (c : Commit)
  : Prop :=
  (fst c = TotalValue \/ fst c = GrossTotalAfterTax) /\
  exists cell, In cell row_values /\ snd c = Py.strip cell.

(** If the assignment [c] is to a total field, its text is the trimmed
    text of a cell of the grid. *)
Definition total_from_grid (df : Grid) (r : InvoiceRecord) (c : Commit)
  : Prop :=
  fst c = TotalValue \/ fst c = GrossTotalAfterTax ->
  exists row_values cell,
    In row_values df /\ In cell row_values /\ snd c = Py.strip cell.

(** ** The batch of [process_all_invoices] *)

(** Line 206: [result['extraction_status'] == 'Success']. *)
Definition is_success (r : InvoiceRecord) : bool :=
  String.eqb (extraction_status r) "Success".

(** Lines 198-207: the counter [successful_extractions] after the loop. *)
Definition successful_extractions (all_results : list InvoiceRecord) : nat :=
  fold_left (fun n r => if is_success r then n + 1 else n) all_results 0.

(** [len(df_results[df_results[key] != ''])] of lines 247-251. *)
Definition filled (f : Field) (df_results : list InvoiceRecord) : nat :=
  length (filter (fun r => negb (String.eqb (get_field f r) "")) df_results).

(** The column [Count] of the summary sheet, lines 242-252, without its
    fourth entry, the success rate, which is a rounded float. *)
Record Summary : Type := {
  total_files_processed : Z;
  successful : Z;
  failed : Z;
  files_with_invoice_numbers : Z;
  files_with_company_names : Z;
  files_with_dates : Z;
  files_with_total_values : Z;
  files_with_gross_total_after_tax : Z
}.

(** Lines 219-252.  [pd.DataFrame(all_results)] of an empty list has no
    column, so the look-up [df_results['invoice_number']] of line 247
    raises [KeyError]; the other entries before it do not raise. *)
Definition summary_data (excel_files : list string)
    (all_results : list InvoiceRecord) : outcome Summary :=
  match all_results with
  | [] => Raise "'invoice_number'"
  | _ :: _ =>
      Ok {| total_files_processed := Z.of_nat (length excel_files);
            successful := Z.of_nat (successful_extractions all_results);
            failed := Z.of_nat (length excel_files)
                      - Z.of_nat (successful_extractions all_results);
            files_with_invoice_numbers := Z.of_nat (filled InvoiceNumber all_results);
            files_with_company_names := Z.of_nat (filled CompanyName all_results);
            files_with_dates := Z.of_nat (filled InvoiceDate all_results);
            files_with_total_values := Z.of_nat (filled TotalValue all_results);
            files_with_gross_total_after_tax :=
              Z.of_nat (filled GrossTotalAfterTax all_results) |}
  end.

(** The output workbook of lines 226-256.  What [pd.ExcelWriter] and
    [to_excel] do with the file is outside the source; each step may
    raise (a text the workbook format refuses, a disk that is full):
    opening the writer (line 226), writing the records (line 227),
    writing the summary (line 256), and closing the writer on leaving
    the [with] block, which saves the file. *)
Record Writer : Type := {
  open_writer : outcome unit;
  write_results : list InvoiceRecord -> outcome unit;
  write_summary : Summary -> outcome unit;
  close_writer : outcome unit
}.

(** [with pd.ExcelWriter(...) as writer: block].  The writer is closed
    on the way out whether the block raised or not, and an exception of
    the close replaces the one of the block. *)
Definition with_writer {A} (out : Writer) (block : outcome A) : outcome A :=
  match open_writer out with
  | Raise message => Raise message
  | Ok _ =>
      match close_writer out with
      | Raise message => Raise message
      | Ok _ => block
      end
  end.

(** Lines 196-263 for the files [excel_files] found by the walk: the
    records returned as [df_results], with the summary written beside
    them.  The function catches nothing. *)
Definition process_all_invoices (lib : Library) (out : Writer)
    (excel_files : list string) : outcome (list InvoiceRecord * Summary) :=
  let all_results := map (extract_invoice_data lib) excel_files in
  with_writer out
    (and_then (write_results out all_results) (fun _ =>
     and_then (summary_data excel_files all_results) (fun summary =>
     and_then (write_summary out summary) (fun _ =>
     Ok (all_results, summary))))).

(** A writer that takes everything, and one that refuses the records. *)
Definition accepting_writer : Writer :=
  {| open_writer := Ok tt;
     write_results := fun _ => Ok tt;
     write_summary := fun _ => Ok tt;
     close_writer := Ok tt |}.

Definition refusing_writer : Writer :=
  {| open_writer := Ok tt;
     write_results := fun _ => Raise "cannot be used in worksheets.";
     write_summary := fun _ => Ok tt;
     close_writer := Ok tt |}.

(** A directory whose workbooks are the entries of [books]: the sheet
    names and the grid of each file (the same grid for every sheet); any
    other path cannot be opened. *)
Definition directory_library
    (books : list (string * (list string * outcome Grid))) : Library :=
  {| basename := posix_basename;
     sheetnames := fun file_path =>
       match find (fun b => String.eqb (fst b) file_path) books with
       | Some b => Ok (fst (snd b))
       | None => Raise "No such file or directory"
       end;
     read_excel := fun file_path _ =>
       match find (fun b => String.eqb (fst b) file_path) books with
       | Some b => snd (snd b)
       | None => Raise "No such file or directory"
       end |}.

Definition sample_directory : Library :=
  directory_library
    [ ("inv/april.xlsx", (["book"; "01-07-2024"], Ok sample_invoice));
      ("inv/may.xlsx", (["book"; "02-08-2024"], Raise "File is not a zip file"));
      ("inv/june.xlsx", ([], Ok [])) ].

(** ** Records and traces *)

Lemma is_empty_true (s : string) : Py.is_empty s = true <-> s = "".
Proof. destruct s; simpl; split; intros H; congruence. Qed.

Lemma truthy_false (s : string) : Py.truthy s = false <-> s = "".
Proof.
  unfold Py.truthy. rewrite negb_false_iff. apply is_empty_true.
Qed.

Lemma truthy_true (s : string) : Py.truthy s = true <-> s <> "".
Proof.
  unfold Py.truthy. destruct s; simpl; split; intros H; congruence.
Qed.

Lemma Field_eqb_eq (f g : Field) : Field_eqb f g = true <-> f = g.
Proof. destruct f, g; simpl; split; intros H; congruence. Qed.

Lemma get_set_field (f g : Field) (v : string) (r : InvoiceRecord) :
  get_field f (set_field g v r) = if Field_eqb f g then v else get_field f r.
Proof. destruct r, f, g; reflexivity. Qed.

Lemma get_set_other (f g : Field) (v : string) (r : InvoiceRecord) :
  f <> g -> get_field f (set_field g v r) = get_field f r.
Proof.
  intros H. rewrite get_set_field.
  destruct (Field_eqb f g) eqn:E; [apply Field_eqb_eq in E; contradiction | reflexivity].
Qed.

Lemma set_field_identity (g : Field) (v : string) (r : InvoiceRecord) :
  file_name (set_field g v r) = file_name r /\
  sheet_name (set_field g v r) = sheet_name r /\
  extraction_status (set_field g v r) = extraction_status r.
Proof. destruct r, g; simpl; auto. Qed.

Lemma replay_app (l1 l2 : list Commit) (r : InvoiceRecord) :
  replay (l1 ++ l2) r = replay l2 (replay l1 r).
Proof. unfold replay. apply fold_left_app. Qed.

Lemma replay_identity (l : list Commit) (r : InvoiceRecord) :
  file_name (replay l r) = file_name r /\
  sheet_name (replay l r) = sheet_name r /\
  extraction_status (replay l r) = extraction_status r.
Proof.
  revert r. induction l as [|c l IH]; intros r; simpl; [auto|].
  destruct (IH (set_field (fst c) (snd c) r)) as (A & B & C).
  destruct (set_field_identity (fst c) (snd c) r) as (A' & B' & C').
  unfold replay in *. simpl. repeat split; congruence.
Qed.

Section Traces.

Variable P : InvoiceRecord -> Commit -> Prop.

Lemma trace_ok_app (l1 l2 : list Commit) (r : InvoiceRecord) :
  trace_ok P r l1 -> trace_ok P (replay l1 r) l2 -> trace_ok P r (l1 ++ l2).
Proof.
  revert r. induction l1 as [|c l1 IH]; intros r H1 H2; simpl in *; [exact H2|].
  inversion H1; subst. constructor; [assumption|]. apply IH; assumption.
Qed.

Lemma trace_ok_split (l1 l2 : list Commit) (r : InvoiceRecord) :
  trace_ok P r (l1 ++ l2) -> trace_ok P r l1 /\ trace_ok P (replay l1 r) l2.
Proof.
  revert r. induction l1 as [|c l1 IH]; intros r H; simpl in *.
  - split; [constructor | exact H].
  - inversion H; subst. destruct (IH _ H4) as [A B].
    split; [constructor; assumption | exact B].
Qed.

Lemma extends_refl (s : Scan) : extends P s s.
Proof.
  exists []. rewrite app_nil_r. repeat split. constructor.
Qed.

Lemma extends_trans (s1 s2 s3 : Scan) :
  extends P s1 s2 -> extends P s2 s3 -> extends P s1 s3.
Proof.
  intros (l1 & C1 & R1 & T1) (l2 & C2 & R2 & T2).
  exists (l1 ++ l2). repeat split.
  - rewrite C2, C1. symmetry. apply app_assoc.
  - rewrite R2, R1. symmetry. apply replay_app.
  - apply trace_ok_app; [assumption | rewrite <- R1; assumption].
Qed.

Lemma extends_assign (f : Field) (v : string) (s : Scan) :
  P (result s) (f, v) -> extends P s (assign f v s).
Proof.
  intros H. exists [(f, v)]. repeat split.
  constructor; [exact H | constructor].
Qed.

End Traces.

Lemma trace_ok_weaken (P Q : InvoiceRecord -> Commit -> Prop) :
  (forall r c, P r c -> Q r c) ->
  forall l r, trace_ok P r l -> trace_ok Q r l.
Proof.
  intros PQ l. induction l as [|c l IH]; intros r H; inversion H; subst;
    constructor; auto.
Qed.

Lemma extends_weaken (P Q : InvoiceRecord -> Commit -> Prop) (s s' : Scan) :
  (forall r c, P r c -> Q r c) -> extends P s s' -> extends Q s s'.
Proof.
  intros PQ (l & C & R & T). exists l. repeat split; try assumption.
  eapply trace_ok_weaken; eassumption.
Qed.

(** A field no assignment of the trace names keeps its value. *)
Lemma replay_untouched (f : Field) (l : list Commit) (r : InvoiceRecord) :
  Forall (fun c => fst c <> f) l -> get_field f (replay l r) = get_field f r.
Proof.
  revert r. induction l as [|c l IH]; intros r H; [reflexivity|].
  inversion H; subst. unfold replay in *. simpl. rewrite IH by assumption.
  apply get_set_other. congruence.
Qed.

Lemma trace_ok_fields (P : InvoiceRecord -> Commit -> Prop) (K : Field -> Prop) :
  (forall r c, P r c -> K (fst c)) ->
  forall l r, trace_ok P r l -> Forall (fun c => K (fst c)) l.
Proof.
  intros PK l. induction l as [|c l IH]; intros r H; inversion H; subst;
    constructor; eauto.
Qed.

(** First match wins for a field whose every assignment is made on a
    record where the field is empty. *)
Lemma guarded_field_kept (f : Field) (l : list Commit) (r : InvoiceRecord) :
  trace_ok (fun r' c => fst c = f -> get_field f r' = "") r l ->
  get_field f r <> "" ->
  get_field f (replay l r) = get_field f r.
Proof.
  revert r. induction l as [|c l IH]; intros r H N; [reflexivity|].
  inversion H; subst. unfold replay in *. simpl.
  assert (D : fst c <> f) by (intros E; apply N; auto).
  assert (E : get_field f (set_field (fst c) (snd c) r) = get_field f r)
    by (apply get_set_other; congruence).
  rewrite IH; [exact E | assumption | rewrite E; exact N].
Qed.

Lemma guarded_field_write_once (f : Field) (l1 l2 l3 : list Commit)
    (r : InvoiceRecord) :
  trace_ok (fun r' c => fst c = f -> get_field f r' = "") r (l1 ++ l2 ++ l3) ->
  get_field f (replay l1 r) <> "" ->
  get_field f (replay (l1 ++ l2) r) = get_field f (replay l1 r).
Proof.
  intros H N. rewrite replay_app.
  apply trace_ok_split in H. destruct H as [_ H].
  apply trace_ok_split in H. destruct H as [H _].
  apply guarded_field_kept; assumption.
Qed.

Lemma commit_ok_guards_total_value (r : InvoiceRecord) (c : Commit) :
  commit_ok r c -> fst c = TotalValue -> get_field TotalValue r = "".
Proof. unfold commit_ok. intros H E. rewrite E in H. simpl. tauto. Qed.


(** ** The assignments of each part of the scan *)

Lemma gross_total_scan_extends (window : list string) (s : Scan) :
  extends totals_commit s (gross_total_scan window s).
Proof.
  induction window as [|cell rest IH]; simpl; [apply extends_refl|].
  destruct (looks_numeric (Py.strip cell)) eqn:L; [|exact IH].
  destruct (to_float (Py.strip cell)) as [x|] eqn:F; [|exact IH].
  apply extends_assign. split; [|right; reflexivity].
  unfold commit_ok, numeric_text; simpl. split; [exact L | exists x; exact F].
Qed.

Lemma total_value_scan_extends (window : list string) (s : Scan) :
  extends totals_commit s (total_value_scan window s).
Proof.
  induction window as [|cell rest IH]; simpl; [apply extends_refl|].
  destruct (looks_numeric (Py.strip cell)) eqn:L; [|exact IH].
  destruct (to_float (Py.strip cell)) as [x|] eqn:F; [|exact IH].
  destruct (Py.gt_100 x && negb (Py.truthy (total_value (result s)))) eqn:G;
    [|exact IH].
  apply andb_true_iff in G. destruct G as [G T].
  apply negb_true_iff, truthy_false in T.
  apply extends_assign. split; [|left; reflexivity].
  unfold commit_ok; simpl. repeat split; try assumption. exists x; auto.
Qed.

Lemma total_keyword_loop_extends (keywords : list string)
    (cell_upper : string) (window : list string) (s : Scan) :
  extends totals_commit s (total_keyword_loop keywords cell_upper window s).
Proof.
  revert s. induction keywords as [|keyword rest IH]; intros s; simpl;
    [apply extends_refl|].
  destruct (Py.contains keyword cell_upper && negb (Py.contains "GROSS" cell_upper));
    [|apply IH].
  destruct (Py.truthy (total_value (result (total_value_scan window s)))).
  - apply total_value_scan_extends.
  - eapply extends_trans; [apply total_value_scan_extends | apply IH].
Qed.

Lemma gross_total_label_extends (row_values : Row) (col_idx : nat)
    (cell_str : string) (s : Scan) :
  extends totals_commit s (gross_total_label row_values col_idx cell_str s).
Proof.
  unfold gross_total_label.
  destruct (Py.contains "GROSS TOTAL AFTER" (Py.upper cell_str)
            && Py.contains "TAX" (Py.upper cell_str));
    [apply gross_total_scan_extends | apply extends_refl].
Qed.

Lemma trailing_fallback_extends (row_values : Row) (col_idx : nat)
    (cell_str : string) (s : Scan) :
  extends totals_commit s (trailing_fallback row_values col_idx cell_str s).
Proof.
  unfold trailing_fallback.
  destruct (length row_values <=? col_idx + 3); [|apply extends_refl].
  destruct (looks_numeric cell_str) eqn:L; [|apply extends_refl].
  destruct (to_float cell_str) as [x|] eqn:F; [|apply extends_refl].
  destruct (Py.gt_100 x) eqn:G; [|apply extends_refl].
  cbv zeta.
  destruct (Py.contains "GROSS" _ && Py.contains "TOTAL" _ && _) eqn:A.
  - apply extends_assign. split; [|right; reflexivity].
    unfold commit_ok, numeric_text; simpl. split; [exact L | exists x; exact F].
  - destruct (existsb _ _ && negb (Py.truthy (total_value (result s)))) eqn:B;
      [|apply extends_refl].
    apply andb_true_iff in B. destruct B as [_ T].
    apply negb_true_iff, truthy_false in T.
    apply extends_assign. split; [|left; reflexivity].
    unfold commit_ok; simpl. repeat split; try assumption. exists x; auto.
Qed.

Lemma scan_cell_extends (row_values : Row) (col_idx : nat)
    (cell_value : string) (s : Scan) :
  extends totals_commit s (scan_cell row_values col_idx cell_value s).
Proof.
  unfold scan_cell. cbv zeta.
  eapply extends_trans; [apply gross_total_label_extends|].
  eapply extends_trans; [apply total_keyword_loop_extends|].
  apply trailing_fallback_extends.
Qed.

Lemma scan_cells_extends (row_values : Row) (cells : list string)
    (col_idx : nat) (s : Scan) :
  extends totals_commit s (scan_cells row_values col_idx cells s).
Proof.
  revert col_idx s. induction cells as [|cell rest IH]; intros col_idx s; simpl;
    [apply extends_refl|].
  eapply extends_trans; [apply scan_cell_extends | apply IH].
Qed.

Lemma invoice_number_and_date_extends (row_values : Row) (s : Scan) :
  extends column5_commit s (invoice_number_and_date row_values s).
Proof.
  unfold invoice_number_and_date.
  destruct (5 <? length row_values); [|apply extends_refl].
  cbv zeta.
  set (cell_value := Py.strip (nth 5 row_values "")).
  set (s1 := if Py.contains "SSH" cell_value && Py.contains "/" cell_value
             then assign InvoiceNumber cell_value s else s).
  assert (E1 : extends column5_commit s s1).
  { subst s1. destruct (Py.contains "SSH" cell_value && Py.contains "/" cell_value);
      [|apply extends_refl].
    apply extends_assign. split; [exact I | left; reflexivity]. }
  destruct (Py.re_match_date cell_value); [|exact E1].
  destruct (Py.is_empty (invoice_date (result s1))) eqn:D; [|exact E1].
  eapply extends_trans; [exact E1|].
  apply extends_assign. split; [|right; reflexivity].
  unfold commit_ok; simpl. apply is_empty_true; exact D.
Qed.

Lemma totals_commit_ok (r : InvoiceRecord) (c : Commit) :
  totals_commit r c -> commit_ok r c.
Proof. intros [H _]; exact H. Qed.

Lemma column5_commit_ok (r : InvoiceRecord) (c : Commit) :
  column5_commit r c -> commit_ok r c.
Proof. intros [H _]; exact H. Qed.

Lemma header_commit_ok (r : InvoiceRecord) (c : Commit) :
  header_commit r c -> commit_ok r c.
Proof. intros [H _]; exact H. Qed.

Lemma scan_row_extends (row_values : Row) (s : Scan) :
  extends commit_ok s (scan_row row_values s).
Proof.
  unfold scan_row. eapply extends_trans.
  - eapply extends_weaken; [apply column5_commit_ok|].
    apply invoice_number_and_date_extends.
  - eapply extends_weaken; [apply totals_commit_ok|].
    apply scan_cells_extends.
Qed.

Lemma scan_rows_extends (df : Grid) (s : Scan) :
  extends commit_ok s (scan_rows df s).
Proof.
  revert s. induction df as [|row rest IH]; intros s; simpl;
    [apply extends_refl|].
  eapply extends_trans; [apply scan_row_extends | apply IH].
Qed.

Lemma scan_rows_app (df1 df2 : Grid) (s : Scan) :
  scan_rows (df1 ++ df2) s = scan_rows df2 (scan_rows df1 s).
Proof. unfold scan_rows. apply fold_left_app. Qed.

Lemma name_and_gstin_extends (row_values : Row) (s : Scan) :
  extends header_commit s (name_and_gstin row_values s).
Proof.
  unfold name_and_gstin.
  destruct (0 <? length row_values); [|apply extends_refl].
  cbv zeta.
  set (cell_value := Py.strip (nth 0 row_values "")).
  set (s1 := if Py.startswith "Name  :" cell_value then _ else s).
  assert (E1 : extends header_commit s s1).
  { subst s1. destruct (Py.startswith "Name  :" cell_value); [|apply extends_refl].
    destruct (Py.truthy _); [|apply extends_refl].
    apply extends_assign. split; [exact I | left; reflexivity]. }
  destruct (Py.startswith "GSTIN :" cell_value); [|exact E1].
  destruct (Py.truthy _ && _); [|exact E1].
  eapply extends_trans; [exact E1|].
  apply extends_assign. split; [exact I | right; left; reflexivity].
Qed.

Lemma vendor_and_po_extends (row_values : Row) (s : Scan) :
  extends header_commit s (vendor_and_po row_values s).
Proof.
  unfold vendor_and_po.
  destruct (5 <? length row_values); [|apply extends_refl].
  destruct (3 <? length row_values); [|apply extends_refl].
  cbv zeta.
  destruct (Py.contains "Vendor Code" _ && _).
  { apply extends_assign. split; [exact I | tauto]. }
  destruct (Py.contains "PO Date" _ && _).
  { apply extends_assign. split; [exact I | tauto]. }
  destruct (Py.contains "Purchase Order No" _ && _); [|apply extends_refl].
  destruct (Py.re_match_date _); [|apply extends_refl].
  apply extends_assign. split; [exact I | tauto].
Qed.

(** The scan of a grid from a fresh record never raises: the name
    [row_values] is read only when a gross total was found, hence after
    at least one row. *)
Lemma locate_fields_total (df : Grid) (file sheet : string) :
  exists s,
    locate_fields df (initial_result file sheet) = Ok s /\
    extends commit_ok (start (initial_result file sheet)) s.
Proof.
  unfold locate_fields, post_processing.
  set (s0 := scan_rows df (start (initial_result file sheet))).
  assert (E0 : extends commit_ok (start (initial_result file sheet)) s0)
    by apply scan_rows_extends.
  destruct (Py.truthy (gross_total_after_tax (result s0))
            && negb (Py.truthy (total_value (result s0)))) eqn:G.
  - destruct (rev df) as [|row_values others] eqn:R.
    + assert (df = []) by (destruct df; [reflexivity|];
        apply (f_equal (@length Row)) in R; rewrite length_rev in R;
        simpl in R; discriminate).
      subst df. subst s0. simpl in G. discriminate.
    + eexists; split; [reflexivity|].
      eapply extends_trans; [exact E0|].
      eapply extends_weaken; [apply header_commit_ok|].
      eapply extends_trans;
        [apply name_and_gstin_extends | apply vendor_and_po_extends].
  - eexists; split; [reflexivity | exact E0].
Qed.

Lemma extends_from_start (P : InvoiceRecord -> Commit -> Prop)
    (r : InvoiceRecord) (s : Scan) :
  extends P (start r) s ->
  result s = replay (commits s) r /\ trace_ok P r (commits s).
Proof.
  intros (l & C & R & T). simpl in *. subst l. auto.
Qed.

Lemma scan_trace (df : Grid) (file sheet : string) (s : Scan) :
  locate_fields df (initial_result file sheet) = Ok s ->
  result s = replay (commits s) (initial_result file sheet) /\
  trace_ok commit_ok (initial_result file sheet) (commits s).
Proof.
  intros L. destruct (locate_fields_total df file sheet) as (s' & L' & E).
  rewrite L in L'. injection L' as <-.
  apply extends_from_start. exact E.
Qed.

Lemma trace_ok_In (P : InvoiceRecord -> Commit -> Prop) (l : list Commit)
    (r : InvoiceRecord) (c : Commit) :
  trace_ok P r l -> In c l -> exists r', P r' c.
Proof.
  revert r. induction l as [|d l IH]; intros r T H; [contradiction|].
  inversion T; subst. destruct H as [-> | H]; [exists r; assumption | eauto].
Qed.

(** ** The guards on [total_value] *)

Lemma total_value_scan_filled (window : list string) (s : Scan) :
  total_value (result s) <> "" -> total_value_scan window s = s.
Proof.
  intros N. apply truthy_true in N.
  induction window as [|cell rest IH]; simpl; [reflexivity|].
  destruct (looks_numeric (Py.strip cell)); [|exact IH].
  destruct (to_float (Py.strip cell)); [|exact IH].
  rewrite N. simpl. rewrite andb_false_r. exact IH.
Qed.

Lemma total_keyword_loop_filled (keywords : list string) (cell_upper : string)
    (window : list string) (s : Scan) :
  total_value (result s) <> "" ->
  total_keyword_loop keywords cell_upper window s = s.
Proof.
  intros N. induction keywords as [|keyword rest IH]; simpl; [reflexivity|].
  rewrite (total_value_scan_filled window s N).
  destruct (Py.contains keyword cell_upper && _); [|exact IH].
  apply truthy_true in N. rewrite N. reflexivity.
Qed.

Lemma trailing_fallback_keeps (row_values : Row) (col_idx : nat)
    (cell_str : string) (s : Scan) :
  (gross_total_after_tax (result s) <> "" ->
   gross_total_after_tax (result (trailing_fallback row_values col_idx cell_str s))
   = gross_total_after_tax (result s)) /\
  (total_value (result s) <> "" ->
   total_value (result (trailing_fallback row_values col_idx cell_str s))
   = total_value (result s)).
Proof.
  unfold trailing_fallback.
  destruct (length row_values <=? col_idx + 3); [|auto].
  destruct (looks_numeric cell_str); [|auto].
  destruct (to_float cell_str) as [x|]; [|auto].
  destruct (Py.gt_100 x); [|auto].
  cbv zeta.
  destruct (Py.contains "GROSS" _ && Py.contains "TOTAL" _ && _) eqn:A.
  - apply andb_true_iff in A. destruct A as [_ A].
    apply negb_true_iff, truthy_false in A.
    split; intros N.
    + contradiction.
    + apply (get_set_other TotalValue GrossTotalAfterTax). discriminate.
  - destruct (existsb _ _ && negb (Py.truthy (total_value (result s)))) eqn:B;
      [|auto].
    apply andb_true_iff in B. destruct B as [_ B].
    apply negb_true_iff, truthy_false in B.
    split; intros N.
    + apply (get_set_other GrossTotalAfterTax TotalValue). discriminate.
    + contradiction.
Qed.

(** C10.  Whatever the grid, the scan returns, its record is the replay
    of its assignments, every assignment to [total_value] is made on a
    record whose [total_value] is empty, and from a point of the scan
    where [total_value] is not empty no later assignment changes it;
    with [total_value] filled, the keyword path assigns nothing and the
    fall-back leaves [total_value] as it is. *)
Theorem total_value_never_modified (df : Grid) (file sheet : string) :
  exists s,
    locate_fields df (initial_result file sheet) = Ok s /\
    result s = replay (commits s) (initial_result file sheet) /\
    (forall l1 v l2,
        commits s = l1 ++ (TotalValue, v) :: l2 ->
        total_value (replay l1 (initial_result file sheet)) = "" /\ v <> "") /\
    (forall l1 l2 l3,
        commits s = l1 ++ l2 ++ l3 ->
        total_value (replay l1 (initial_result file sheet)) <> "" ->
        total_value (replay (l1 ++ l2) (initial_result file sheet))
        = total_value (replay l1 (initial_result file sheet))) /\
    (forall keywords cell_upper window s',
        total_value (result s') <> "" ->
        total_keyword_loop keywords cell_upper window s' = s') /\
    (forall row_values col_idx cell_str s',
        total_value (result s') <> "" ->
        total_value (result (trailing_fallback row_values col_idx cell_str s'))
        = total_value (result s')).
Proof.
  destruct (locate_fields_total df file sheet) as (s & L & E).
  exists s. split; [exact L|].
  destruct (scan_trace _ _ _ _ L) as [R T].
  split; [exact R|]. split; [|split; [|split]].
  - intros l1 v l2 C. rewrite C in T.
    apply trace_ok_split in T. destruct T as [_ T].
    inversion T as [|r c l G _]; subst.
    unfold commit_ok in G; simpl in G. destruct G as (G & N & _).
    split; [exact G|]. intros ->. discriminate.
  - intros l1 l2 l3 C N. rewrite C in T.
    apply (guarded_field_write_once TotalValue l1 l2 l3); [|exact N].
    eapply trace_ok_weaken; [|exact T].
    intros r c H. apply commit_ok_guards_total_value. exact H.
  - intros. apply total_keyword_loop_filled. assumption.
  - intros row_values col_idx cell_str s' N.
    apply trailing_fallback_keeps. exact N.
Qed.

Lemma total_value_never_modified_witness :
  total_value
    (replay [(InvoiceNumber, "SSH/24-25/001"); (InvoiceDate, "2024-07-01");
             (TotalValue, "250.00"); (GrossTotalAfterTax, "11,798.82")]
       (initial_result "april.xlsx" "01-07-2024"))
  = "250.00".
Proof.
  destruct (total_value_never_modified sample_invoice "april.xlsx" "01-07-2024")
    as (s & L & _ & _ & W & _).
  vm_compute in L. injection L as <-.
  apply (W [(InvoiceNumber, "SSH/24-25/001"); (InvoiceDate, "2024-07-01");
            (TotalValue, "250.00")]
           [(GrossTotalAfterTax, "11,798.82")] []).
  - reflexivity.
  - vm_compute. discriminate.
Defined.

(** ** First match wins *)


(** The earlier of two labelled totals is kept, whatever their size. *)
Example earlier_total_kept (file sheet : string) :
  exists s,
    locate_fields two_totals (initial_result file sheet) = Ok s /\
    commits s = [(TotalValue, "250.00")] /\
    total_value (result s) = "250.00".
Proof. eexists. split; [vm_compute; reflexivity|]. simpl. auto. Qed.

(** ** Numeric candidates *)

(** C7, as stated, fails: [float] also accepts the spellings of infinity
    and NaN, and a cell such as [,inf] passes the tests of lines 77-80. *)
Lemma infinity_is_committed : ~ numeric_commits_finite infinite_gross_total.
Proof.
  intros H.
  destruct (H "april.xlsx" "01-07-2024" _ GrossTotalAfterTax ",inf" eq_refl)
    as (negative & digits & exp10 & E).
  - vm_compute. left. reflexivity.
  - right. reflexivity.
  - vm_compute in E. discriminate.
Qed.

(** C7, amended.  Whatever the grid, the scan returns with the status
    [Success]; a text assigned to [total_value] or
    [gross_total_after_tax] starts with a digit or a comma, is longer
    than two characters and is accepted by [float] once its commas are
    removed (a decimal literal, or a spelling of infinity or NaN), and
    for [total_value] the number is above 100; [abc] and the empty text
    are never assigned to them; [12,345.50] and [12345.50] are the same
    number. *)
Theorem numeric_commits_pass_float (df : Grid) (file sheet : string) :
  exists s,
    locate_fields df (initial_result file sheet) = Ok s /\
    extraction_status (result s) = "Success" /\
    (forall f v,
        In (f, v) (commits s) ->
        f = TotalValue \/ f = GrossTotalAfterTax ->
        numeric_text v /\ v <> "abc" /\ v <> "") /\
    (forall v,
        In (TotalValue, v) (commits s) ->
        exists x, to_float v = Some x /\ Py.gt_100 x = true) /\
    to_float "12,345.50" = to_float "12345.50" /\
    to_float "12345.50" = Some (Py.PyDec false 1234550 (-2)) /\
    to_float "abc" = None /\ to_float "" = None.
Proof.
  destruct (locate_fields_total df file sheet) as (s & L & E).
  exists s. split; [exact L|].
  destruct (scan_trace _ _ _ _ L) as [R T].
  split.
  { rewrite R. apply replay_identity. }
  split; [|split].
  - intros f v I F.
    destruct (trace_ok_In _ _ _ _ T I) as (r' & G).
    assert (Nt : numeric_text v).
    { unfold commit_ok in G; simpl in G.
      destruct F as [-> | ->]; [|exact G].
      destruct G as (_ & Ln & x & Fx & _). split; [exact Ln | exists x; exact Fx]. }
    split; [exact Nt|]. destruct Nt as [Ln _].
    split; intros ->; vm_compute in Ln; discriminate.
  - intros v I. destruct (trace_ok_In _ _ _ _ T I) as (r' & G).
    unfold commit_ok in G; simpl in G. tauto.
  - repeat split; vm_compute; reflexivity.
Qed.

Lemma numeric_commits_pass_float_witness :
  numeric_text "11,798.82" /\ "11,798.82" <> "abc" /\ "11,798.82" <> "".
Proof.
  destruct (numeric_commits_pass_float sample_invoice "april.xlsx" "01-07-2024")
    as (s & L & _ & N & _).
  vm_compute in L. injection L as <-.
  apply (N GrossTotalAfterTax "11,798.82").
  - simpl. tauto.
  - right. reflexivity.
Defined.

(** ** The fall-back and the label heuristics *)

(** C5, as stated, fails: the fall-back of a cell runs before the label
    heuristics of the cells to its right, so a number standing left of a
    label takes [total_value] and the label's candidate is ignored. *)
Lemma fallback_preempts_label_candidate :
  ~ label_candidate_kept number_before_label.
Proof.
  intros H. specialize (H TotalValue (or_introl eq_refl)).
  vm_compute in H.
  assert (E : "9999.00" <> "") by discriminate.
  specialize (H E). discriminate.
Qed.

(** On that row the two passes of the specification and the single
    pass of the code disagree. *)
Example two_pass_reading_differs :
  total_value
    (result (spec_two_pass_row number_before_label (start (initial_result "" ""))))
  = "9999.00" /\
  total_value
    (result (scan_row number_before_label (start (initial_result "" ""))))
  = "500.00".
Proof. split; vm_compute; reflexivity. Qed.

(** C4.  The keyword path skips a cell that carries the gross marker,
    yet the scan of the row [GROSS TOTAL AFTER TAX | 123456.00] assigns
    the number to [gross_total_after_tax] and then, through the second
    branch of the fall-back, to [total_value] as well. *)
Theorem gross_row_fills_total_value (file sheet : string) :
  (forall keywords cell_upper window s,
      Py.contains "GROSS" cell_upper = true ->
      total_keyword_loop keywords cell_upper window s = s) /\
  exists s,
    locate_fields [gross_total_row] (initial_result file sheet) = Ok s /\
    commits s = [(GrossTotalAfterTax, "123456.00"); (TotalValue, "123456.00")] /\
    gross_total_after_tax (result s) = "123456.00" /\
    total_value (result s) = "123456.00".
Proof.
  split.
  - intros keywords cell_upper window s G.
    induction keywords as [|keyword rest IH]; simpl; [reflexivity|].
    rewrite G. simpl. rewrite andb_false_r. exact IH.
  - eexists. split; [vm_compute; reflexivity|]. simpl. auto.
Qed.

Lemma gross_row_fills_total_value_witness :
  total_keyword_loop total_keywords "GROSS TOTAL AFTER TAX" ["123456.00"]
    (start (initial_result "" ""))
  = start (initial_result "" "").
Proof.
  destruct (gross_row_fills_total_value "" "") as [K _].
  apply K. reflexivity.
Defined.

(** ** The block after the loop *)

Lemma loop_commit_of_totals (r : InvoiceRecord) (c : Commit) :
  totals_commit r c -> loop_commit r c.
Proof. unfold totals_commit, loop_commit. tauto. Qed.

Lemma loop_commit_of_column5 (r : InvoiceRecord) (c : Commit) :
  column5_commit r c -> loop_commit r c.
Proof. unfold column5_commit, loop_commit. tauto. Qed.

Lemma scan_rows_loop_commits (df : Grid) (s : Scan) :
  extends loop_commit s (scan_rows df s).
Proof.
  revert s. induction df as [|row rest IH]; intros s; simpl;
    [apply extends_refl|].
  eapply extends_trans; [|apply IH].
  unfold scan_row. eapply extends_trans.
  - eapply extends_weaken; [apply loop_commit_of_column5|].
    apply invoice_number_and_date_extends.
  - eapply extends_weaken; [apply loop_commit_of_totals|].
    apply scan_cells_extends.
Qed.

(** A field outside the class [K] of the assignments made from [s] to
    [s'] has the same value in both. *)
Lemma extends_untouched (P : InvoiceRecord -> Commit -> Prop)
    (K : Field -> Prop) (f : Field) (s s' : Scan) :
  (forall r c, P r c -> K (fst c)) -> ~ K f ->
  extends P s s' -> get_field f (result s') = get_field f (result s).
Proof.
  intros PK NK (l & _ & R & T). rewrite R. apply replay_untouched.
  apply (trace_ok_fields P K PK) in T.
  eapply Forall_impl; [|exact T]. intros c Kc E. apply NK. rewrite <- E. exact Kc.
Qed.

Lemma header_fields_after_loop (f : Field) (df : Grid) (s : Scan) :
  header_field f ->
  get_field f (result (scan_rows df s)) = get_field f (result s).
Proof.
  intros H. apply (extends_untouched loop_commit loop_field).
  - intros r c [_ K]. exact K.
  - unfold loop_field, header_field in *. intros K.
    destruct H as [-> | [-> | [-> | [-> | ->]]]];
      destruct K as [K | [K | [K | K]]]; discriminate.
  - apply scan_rows_loop_commits.
Qed.

(** The block of lines 136-162 is reached only with a gross total and no
    total value, and it leaves both as they are. *)
Lemma header_block_gate (f : Field) (df : Grid) (file sheet : string) (s : Scan) :
  locate_fields df (initial_result file sheet) = Ok s ->
  header_field f ->
  gross_total_after_tax (result s) = "" \/ total_value (result s) <> "" ->
  get_field f (result s) = "".
Proof.
  unfold locate_fields, post_processing.
  set (s0 := scan_rows df (start (initial_result file sheet))).
  intros L H G.
  assert (E0 : get_field f (result s0) = "").
  { subst s0. rewrite header_fields_after_loop by exact H.
    destruct H as [-> | [-> | [-> | [-> | ->]]]]; reflexivity. }
  destruct (Py.truthy (gross_total_after_tax (result s0))
            && negb (Py.truthy (total_value (result s0)))) eqn:T.
  - exfalso. destruct (rev df) as [|row_values others]; [discriminate|].
    injection L as <-.
    apply andb_true_iff in T. destruct T as [Tg Tt].
    apply truthy_true in Tg. apply negb_true_iff, truthy_false in Tt.
    assert (X : extends header_commit s0
                  (vendor_and_po row_values (name_and_gstin row_values s0)))
      by (eapply extends_trans;
          [apply name_and_gstin_extends | apply vendor_and_po_extends]).
    assert (Kg : get_field GrossTotalAfterTax
                   (result (vendor_and_po row_values (name_and_gstin row_values s0)))
                 = get_field GrossTotalAfterTax (result s0)).
    { apply (extends_untouched header_commit header_field); [| |exact X].
      - intros r c [_ K]. exact K.
      - unfold header_field. intros [K | [K | [K | [K | K]]]]; discriminate. }
    assert (Kt : get_field TotalValue
                   (result (vendor_and_po row_values (name_and_gstin row_values s0)))
                 = get_field TotalValue (result s0)).
    { apply (extends_untouched header_commit header_field); [| |exact X].
      - intros r c [_ K]. exact K.
      - unfold header_field. intros [K | [K | [K | [K | K]]]]; discriminate. }
    simpl in Kg, Kt. destruct G as [G | G]; congruence.
  - injection L as <-. exact E0.
Qed.

(** C2.  On a row by itself the heuristic of lines 136-148 finds the
    company name and the GSTIN, but the block stands after the loop
    under the test of line 126: a scan that found no gross total, or
    found a total value, assigns neither, and the grid whose only cell
    is [Name  :ACME INDUSTRIES] yields an empty [company_name]. *)
Theorem company_name_block_unreached (df : Grid) (file sheet : string) :
  (exists s,
      locate_fields df (initial_result file sheet) = Ok s /\
      (gross_total_after_tax (result s) = "" \/ total_value (result s) <> "" ->
       company_name (result s) = "" /\ gstin (result s) = "")) /\
  company_name
    (result (name_and_gstin ["Name  :ACME INDUSTRIES"]
               (start (initial_result file sheet))))
  = "ACME INDUSTRIES" /\
  gstin
    (result (name_and_gstin ["GSTIN :33ABCDE1234F1Z5"]
               (start (initial_result file sheet))))
  = "33ABCDE1234F1Z5" /\
  locate_fields name_only (initial_result file sheet)
  = Ok (start (initial_result file sheet)) /\
  locate_fields gstin_only (initial_result file sheet)
  = Ok (start (initial_result file sheet)).
Proof.
  split; [|repeat split; vm_compute; reflexivity].
  destruct (locate_fields_total df file sheet) as (s & L & _).
  exists s. split; [exact L|]. intros G. split.
  - apply (header_block_gate CompanyName df file sheet s L); [|exact G].
    unfold header_field. tauto.
  - apply (header_block_gate Gstin df file sheet s L); [|exact G].
    unfold header_field. tauto.
Qed.

Lemma company_name_block_unreached_witness :
  company_name (result (start (initial_result "april.xlsx" "01-07-2024"))) = "".
Proof.
  destruct (company_name_block_unreached name_only "april.xlsx" "01-07-2024")
    as ((s & L & G) & _).
  vm_compute in L. injection L as <-.
  apply G. left. reflexivity.
Defined.

(** C3.  On a row by itself the heuristic of lines 150-162 pairs the
    label of column 3 with the value of column 5, but it stands in the
    same block after the loop: a scan that found no gross total, or
    found a total value, assigns none of [vendor_code], [po_number] and
    [po_date], and the grid with the row
    [ | | | Vendor Code | | VC-102] yields an empty [vendor_code]. *)
Theorem vendor_block_unreached (df : Grid) (file sheet : string) :
  (exists s,
      locate_fields df (initial_result file sheet) = Ok s /\
      (gross_total_after_tax (result s) = "" \/ total_value (result s) <> "" ->
       vendor_code (result s) = "" /\ po_number (result s) = "" /\
       po_date (result s) = "")) /\
  vendor_code
    (result (vendor_and_po vendor_code_row (start (initial_result file sheet))))
  = "VC-102" /\
  po_number
    (result (vendor_and_po [""; ""; ""; "PO Date"; ""; "4500012345"]
               (start (initial_result file sheet))))
  = "4500012345" /\
  po_date
    (result (vendor_and_po
               [""; ""; ""; "Purchase Order No"; ""; "2024-06-15 00:00:00"]
               (start (initial_result file sheet))))
  = "2024-06-15" /\
  locate_fields [vendor_code_row] (initial_result file sheet)
  = Ok (start (initial_result file sheet)).
Proof.
  split; [|repeat split; vm_compute; reflexivity].
  destruct (locate_fields_total df file sheet) as (s & L & _).
  exists s. split; [exact L|]. intros G. repeat split.
  - apply (header_block_gate VendorCode df file sheet s L); [|exact G].
    unfold header_field. tauto.
  - apply (header_block_gate PoNumber df file sheet s L); [|exact G].
    unfold header_field. tauto.
  - apply (header_block_gate PoDate df file sheet s L); [|exact G].
    unfold header_field. tauto.
Qed.

Lemma vendor_block_unreached_witness :
  vendor_code (result (start (initial_result "april.xlsx" "01-07-2024"))) = "".
Proof.
  destruct (vendor_block_unreached [vendor_code_row] "april.xlsx" "01-07-2024")
    as ((s & L & G) & _).
  vm_compute in L. injection L as <-.
  apply G. left. reflexivity.
Defined.

(** ** Column 5 *)

Lemma digit_is_not_space (c : ascii) :
  Py.isdigit c = true -> Ascii.eqb c " " = false.
Proof.
  intros D. destruct (Ascii.eqb_spec c " ") as [-> | _]; [|reflexivity].
  vm_compute in D. discriminate.
Qed.

Lemma date_head_not_empty (s : string) :
  Py.re_match_date s = true -> Py.split_space_head s <> "".
Proof.
  destruct s as [|c r]; [vm_compute; discriminate|].
  unfold Py.re_match_date. simpl.
  destruct (Py.isdigit c) eqn:D; [|simpl; discriminate].
  intros _. rewrite (digit_is_not_space c D). discriminate.
Qed.

Lemma scan_cells_keeps_column5 (f : Field) (row_values : Row)
    (cells : list string) (col_idx : nat) (s : Scan) :
  f = InvoiceNumber \/ f = InvoiceDate ->
  get_field f (result (scan_cells row_values col_idx cells s))
  = get_field f (result s).
Proof.
  intros H.
  apply (extends_untouched totals_commit
           (fun g => g = TotalValue \/ g = GrossTotalAfterTax)).
  - intros r c [_ K]. exact K.
  - intros [K | K]; destruct H as [-> | ->]; discriminate.
  - apply scan_cells_extends.
Qed.

(** C9, as stated, fails for the date in two ways: a row whose column 5
    starts with a date leaves [invoice_date] alone when an earlier row
    has set it; and what follows the date is cut at the first space
    only, so a time joined to the date by another character, as in
    [2024-07-01T10:00:00], is kept. *)
Lemma later_date_ignored :
  ~ date_cell_committed two_dates /\ ~ date_cell_committed date_joined_to_time.
Proof.
  split; intros H.
  - assert (L : 5 < length [""; ""; ""; ""; ""; "2025-01-02 00:00:00"])
      by (simpl; lia).
    specialize (H [[""; ""; ""; ""; ""; "2024-07-01 00:00:00"]]
                  [""; ""; ""; ""; ""; "2025-01-02 00:00:00"] []
                  "april.xlsx" "01-07-2024" eq_refl L eq_refl).
    vm_compute in H. discriminate.
  - assert (L : 5 < length [""; ""; ""; ""; ""; "2024-07-01T10:00:00"])
      by (simpl; lia).
    specialize (H [] [""; ""; ""; ""; ""; "2024-07-01T10:00:00"] []
                  "april.xlsx" "01-07-2024" eq_refl L eq_refl).
    vm_compute in H. discriminate.
Qed.

Lemma invoice_number_assigned (v : string) (t : Scan) :
  invoice_number (result (assign InvoiceNumber v t)) = v /\
  invoice_date (result (assign InvoiceNumber v t)) = invoice_date (result t).
Proof. simpl. destruct (result t); auto. Qed.

Lemma invoice_date_assigned (v : string) (t : Scan) :
  invoice_date (result (assign InvoiceDate v t)) = v /\
  invoice_number (result (assign InvoiceDate v t)) = invoice_number (result t).
Proof. simpl. destruct (result t); auto. Qed.

(** C9, amended.  For a row with at least 6 columns, scanned after the
    rows [before]: if the trimmed text of column 5 contains [SSH] and
    [/], it is [invoice_number] once the row is scanned; if it starts
    with the date pattern and [invoice_date] is still empty, the text
    before its first space is [invoice_date] once the row is scanned,
    and is not empty; if [invoice_date] is already set, the row leaves
    it as it is.  [2024-07-01 00:00:00] gives [2024-07-01]. *)
Theorem column5_heuristics (before : Grid) (row_values : Row)
    (file sheet : string) :
  5 < length row_values ->
  let cell_value := Py.strip (nth 5 row_values "") in
  let s := scan_rows before (start (initial_result file sheet)) in
  let s' := scan_rows (before ++ [row_values])
              (start (initial_result file sheet)) in
  (Py.contains "SSH" cell_value = true ->
   Py.contains "/" cell_value = true ->
   invoice_number (result s') = cell_value) /\
  (Py.re_match_date cell_value = true ->
   invoice_date (result s) = "" ->
   invoice_date (result s') = Py.split_space_head cell_value /\
   invoice_date (result s') <> "") /\
  (invoice_date (result s) <> "" ->
   invoice_date (result s') = invoice_date (result s)) /\
  Py.split_space_head (Py.strip "2024-07-01 00:00:00") = "2024-07-01".
Proof.
  intros Len cell_value s s'.
  assert (E : s' = scan_cells row_values 0 row_values
                     (invoice_number_and_date row_values s)).
  { subst s' s. rewrite scan_rows_app. reflexivity. }
  assert (Kn : invoice_number (result s')
               = invoice_number (result (invoice_number_and_date row_values s))).
  { rewrite E. apply (scan_cells_keeps_column5 InvoiceNumber). tauto. }
  assert (Kd : invoice_date (result s')
               = invoice_date (result (invoice_number_and_date row_values s))).
  { rewrite E. apply (scan_cells_keeps_column5 InvoiceDate). tauto. }
  rewrite Kn, Kd. clear E Kn Kd s'.
  unfold invoice_number_and_date.
  apply Nat.ltb_lt in Len. rewrite Len. cbv zeta. fold cell_value.
  split; [|split; [|split; [|reflexivity]]].
  - intros A B. rewrite A, B. simpl andb. cbv iota.
    destruct (Py.re_match_date cell_value);
      [|apply invoice_number_assigned].
    destruct (Py.is_empty _); [|apply invoice_number_assigned].
    destruct (invoice_date_assigned (Py.split_space_head cell_value)
                (assign InvoiceNumber cell_value s)) as [_ K].
    rewrite K. apply invoice_number_assigned.
  - intros D Z. rewrite D.
    assert (Z1 : invoice_date
                   (result (if Py.contains "SSH" cell_value && Py.contains "/" cell_value
                            then assign InvoiceNumber cell_value s else s)) = "").
    { destruct (Py.contains "SSH" cell_value && Py.contains "/" cell_value);
        [|exact Z].
      destruct (invoice_number_assigned cell_value s) as [_ K].
      rewrite K. exact Z. }
    apply is_empty_true in Z1. rewrite Z1.
    split; [apply invoice_date_assigned|].
    destruct (invoice_date_assigned (Py.split_space_head cell_value)
                (if Py.contains "SSH" cell_value && Py.contains "/" cell_value
                 then assign InvoiceNumber cell_value s else s)) as [K _].
    rewrite K. apply date_head_not_empty. exact D.
  - intros N.
    assert (N1 : invoice_date
                   (result (if Py.contains "SSH" cell_value && Py.contains "/" cell_value
                            then assign InvoiceNumber cell_value s else s))
                 = invoice_date (result s)).
    { destruct (Py.contains "SSH" cell_value && Py.contains "/" cell_value);
        [|reflexivity].
      apply invoice_number_assigned. }
    destruct (Py.re_match_date cell_value); [|exact N1].
    destruct (Py.is_empty _) eqn:Z; [|exact N1].
    apply is_empty_true in Z. congruence.
Qed.

Lemma column5_heuristics_witness :
  invoice_number
    (result (scan_rows ([] ++ [[""; ""; ""; ""; ""; " SSH/24-25/001 "]])
               (start (initial_result "april.xlsx" "01-07-2024"))))
  = "SSH/24-25/001" /\
  invoice_date
    (result (scan_rows ([] ++ [[""; ""; ""; ""; ""; "2024-07-01 00:00:00"]])
               (start (initial_result "april.xlsx" "01-07-2024"))))
  = "2024-07-01".
Proof.
  split.
  - assert (L : 5 < length [""; ""; ""; ""; ""; " SSH/24-25/001 "])
      by (simpl; lia).
    destruct (column5_heuristics [] [""; ""; ""; ""; ""; " SSH/24-25/001 "]
                "april.xlsx" "01-07-2024" L) as (A & _).
    apply A; reflexivity.
  - assert (L : 5 < length [""; ""; ""; ""; ""; "2024-07-01 00:00:00"])
      by (simpl; lia).
    destruct (column5_heuristics [] [""; ""; ""; ""; ""; "2024-07-01 00:00:00"]
                "april.xlsx" "01-07-2024" L) as (_ & B & _).
    apply B; reflexivity.
Defined.

(** ** Sheet selection *)

Lemma data_sheet_test (sheet : string) :
  negb (String.eqb sheet "book") && (3 <? String.length sheet) = true
  <-> data_sheet sheet.
Proof.
  unfold data_sheet. rewrite andb_true_iff, negb_true_iff, Nat.ltb_lt.
  destruct (String.eqb_spec sheet "book") as [E | E]; split; intros [A B];
    split; congruence || assumption || reflexivity.
Qed.

Lemma first_data_sheet_found (skipped : list string) (sheet : string)
    (rest : list string) :
  Forall (fun name => ~ data_sheet name) skipped ->
  data_sheet sheet ->
  first_data_sheet (skipped ++ sheet :: rest) = Some sheet.
Proof.
  intros S D. induction S as [|name skipped N _ IH]; simpl.
  - apply data_sheet_test in D. rewrite D. reflexivity.
  - destruct (negb (String.eqb name "book") && (3 <? String.length name)) eqn:T;
      [|exact IH].
    apply data_sheet_test in T. contradiction.
Qed.

Lemma first_data_sheet_none (sheet_names : list string) :
  Forall (fun name => ~ data_sheet name) sheet_names ->
  first_data_sheet sheet_names = None.
Proof.
  intros S. induction S as [|name rest N _ IH]; simpl; [reflexivity|].
  destruct (negb (String.eqb name "book") && (3 <? String.length name)) eqn:T;
    [|exact IH].
  apply data_sheet_test in T. contradiction.
Qed.

(** C8.  The selector returns the first name of the list that is not
    [book] and is longer than 3 characters; when no name is, it returns
    the first name of the list; [book, Sheet1] selects [Sheet1] and
    [book, ab] selects [book]; on the empty list it raises, and
    [extract_invoice_data] reports the exception as the error status of
    the file. *)
Theorem select_sheet_rule (sheet_names : list string) :
  (forall skipped sheet rest,
      sheet_names = skipped ++ sheet :: rest ->
      Forall (fun name => ~ data_sheet name) skipped ->
      data_sheet sheet ->
      select_sheet sheet_names = Ok sheet) /\
  (forall sheet rest,
      sheet_names = sheet :: rest ->
      Forall (fun name => ~ data_sheet name) sheet_names ->
      select_sheet sheet_names = Ok sheet) /\
  select_sheet ["book"; "Sheet1"] = Ok "Sheet1" /\
  select_sheet ["book"; "ab"] = Ok "book" /\
  select_sheet [] = Raise "list index out of range" /\
  (forall lib file_path,
      sheetnames lib file_path = Ok [] ->
      extract_invoice_data lib file_path
      = error_result (basename lib file_path) "list index out of range" /\
      extraction_status (extract_invoice_data lib file_path)
      = "Error: list index out of range").
Proof.
  split; [|split; [|repeat split]].
  - intros skipped sheet rest -> S D. unfold select_sheet.
    rewrite (first_data_sheet_found skipped sheet rest S D).
    destruct D as [_ D]. destruct sheet; [simpl in D; lia | reflexivity].
  - intros sheet rest -> S. unfold select_sheet.
    rewrite (first_data_sheet_none _ S). reflexivity.
  - unfold extract_invoice_data, try_body. rewrite H. reflexivity.
  - unfold extract_invoice_data, try_body. rewrite H. reflexivity.
Qed.

Lemma select_sheet_rule_witness :
  select_sheet ["book"; "ab"; "01-07-2024"; "Sheet1"] = Ok "01-07-2024" /\
  select_sheet ["ab"; "book"] = Ok "ab".
Proof.
  split.
  - destruct (select_sheet_rule ["book"; "ab"; "01-07-2024"; "Sheet1"])
      as (A & _).
    apply (A ["book"; "ab"] "01-07-2024" ["Sheet1"]).
    + reflexivity.
    + repeat constructor; unfold data_sheet; simpl; intros [B C];
        [apply B; reflexivity | lia].
    + unfold data_sheet; simpl. split; [discriminate | lia].
  - destruct (select_sheet_rule ["ab"; "book"]) as (_ & B & _).
    apply (B "ab" ["book"]).
    + reflexivity.
    + repeat constructor; unfold data_sheet; simpl; intros [C D];
        [lia | apply C; reflexivity].
Defined.

(** ** The failure boundary *)

Lemma select_sheet_raises (sheet_names : list string) (message : string) :
  select_sheet sheet_names = Raise message ->
  sheet_names = [] /\ message = "list index out of range".
Proof.
  unfold select_sheet, first_sheet.
  destruct sheet_names as [|sheet rest].
  - simpl. intros H. injection H as <-. auto.
  - destruct (first_data_sheet (sheet :: rest)) as [t|];
      [destruct (Py.truthy t)|]; discriminate.
Qed.

Lemma try_body_raises (lib : Library) (file_path message : string) :
  try_body lib file_path = Raise message <-> fails_with lib file_path message.
Proof.
  unfold try_body, fails_with. split.
  - destruct (sheetnames lib file_path) as [sheet_names | m] eqn:S; simpl.
    + destruct (select_sheet sheet_names) as [target_sheet | m] eqn:T; simpl.
      * destruct (read_excel lib file_path target_sheet) as [df | m] eqn:R; simpl.
        -- destruct (locate_fields_total df (basename lib file_path) target_sheet)
             as (s & L & _).
           rewrite L. simpl. discriminate.
        -- intros H. injection H as <-. right. right.
           exists sheet_names, target_sheet. auto.
      * intros H. injection H as <-.
        apply select_sheet_raises in T. destruct T as [-> ->]. auto.
    + intros H. injection H as <-. auto.
  - intros [S | [[S ->] | (sheet_names & target_sheet & S & T & R)]];
      rewrite S; simpl; [reflexivity | reflexivity |].
    rewrite T. simpl. rewrite R. reflexivity.
Qed.

(** C6, as stated, fails: the record of a failure has the text [Error]
    as its sheet name, not the sheet that was chosen. *)
Lemma failure_loses_sheet_name :
  ~ failure_keeps_sheet
      (uniform_library ["book"; "01-07-2024"] (Raise "File is not a zip file"))
      "invoices/april.xlsx".
Proof.
  intros H.
  specialize (H ["book"; "01-07-2024"] "01-07-2024" "File is not a zip file"
                eq_refl eq_refl eq_refl).
  vm_compute in H. discriminate.
Qed.

(** C6, amended.  The body of the [try] raises only when the workbook
    cannot be opened, has no sheet, or its chosen sheet cannot be read;
    the record then returned has the base name of the file as file name,
    the text [Error] as sheet name, every extracted field empty, and the
    status [Error: ] followed by the message of the exception. *)
Theorem failure_record (lib : Library) (file_path : string) :
  (forall message,
      try_body lib file_path = Raise message ->
      fails_with lib file_path message) /\
  (forall message,
      fails_with lib file_path message ->
      extract_invoice_data lib file_path
      = error_result (basename lib file_path) message /\
      file_name (extract_invoice_data lib file_path) = basename lib file_path /\
      sheet_name (extract_invoice_data lib file_path) = "Error" /\
      (forall f, get_field f (extract_invoice_data lib file_path) = "") /\
      extraction_status (extract_invoice_data lib file_path)
      = String.append "Error: " message).
Proof.
  split; intros message H.
  - apply try_body_raises. exact H.
  - apply try_body_raises in H. unfold extract_invoice_data. rewrite H.
    repeat split. intros f. destruct f; reflexivity.
Qed.

Lemma failure_record_witness :
  extract_invoice_data
    (uniform_library ["book"; "01-07-2024"] (Raise "File is not a zip file"))
    "invoices/april.xlsx"
  = error_result "april.xlsx" "File is not a zip file".
Proof.
  destruct (failure_record
              (uniform_library ["book"; "01-07-2024"]
                 (Raise "File is not a zip file"))
              "invoices/april.xlsx") as [_ K].
  apply K. right. right.
  exists ["book"; "01-07-2024"], "01-07-2024". repeat split.
Defined.

(** ** More on the sheet selector *)

Lemma first_data_sheet_some (sheet_names : list string) (target : string) :
  first_data_sheet sheet_names = Some target ->
  In target sheet_names /\ data_sheet target.
Proof.
  induction sheet_names as [|name rest IH]; simpl; [discriminate|].
  destruct (negb (String.eqb name "book") && (3 <? String.length name)) eqn:T.
  - intros H. injection H as <-. split; [left; reflexivity|].
    apply data_sheet_test. exact T.
  - intros H. destruct (IH H) as [A B]. split; [right; exact A | exact B].
Qed.

Lemma first_data_sheet_none_inv (sheet_names : list string) :
  first_data_sheet sheet_names = None ->
  Forall (fun name => ~ data_sheet name) sheet_names.
Proof.
  induction sheet_names as [|name rest IH]; simpl; [constructor|].
  destruct (negb (String.eqb name "book") && (3 <? String.length name)) eqn:T;
    [discriminate|].
  intros H. constructor; [|exact (IH H)].
  intros D. apply data_sheet_test in D. congruence.
Qed.

(** X1.  On a list with at least one name the selector does not raise,
    and the name it returns is one of the list: a data sheet, or, when
    the list has no data sheet, its first name. *)
Theorem select_sheet_member (sheet_names : list string) :
  sheet_names <> [] ->
  exists target,
    select_sheet sheet_names = Ok target /\
    In target sheet_names /\
    (data_sheet target \/
     (Forall (fun name => ~ data_sheet name) sheet_names /\
      exists rest, sheet_names = target :: rest)).
Proof.
  intros N. unfold select_sheet.
  destruct (first_data_sheet sheet_names) as [target|] eqn:F.
  - destruct (first_data_sheet_some _ _ F) as [I D].
    exists target. assert (T : Py.truthy target = true).
    { destruct D as [_ D]. destruct target; [simpl in D; lia | reflexivity]. }
    rewrite T. auto.
  - destruct sheet_names as [|first rest]; [contradiction|].
    exists first. simpl. split; [reflexivity|]. split; [left; reflexivity|].
    right. split; [apply first_data_sheet_none_inv; exact F | exists rest; reflexivity].
Qed.

Lemma select_sheet_member_witness :
  exists target,
    select_sheet ["ab"; "book"] = Ok target /\
    In target ["ab"; "book"] /\
    (data_sheet target \/
     (Forall (fun name => ~ data_sheet name) ["ab"; "book"] /\
      exists rest, ["ab"; "book"] = target :: rest)).
Proof.
  apply (select_sheet_member ["ab"; "book"]). discriminate.
Defined.

(** ** The record of a success *)

Lemma scan_of_readable_sheet (lib : Library) (file_path : string)
    (sheet_names : list string) (target_sheet : string) (df : Grid) :
  sheetnames lib file_path = Ok sheet_names ->
  select_sheet sheet_names = Ok target_sheet ->
  read_excel lib file_path target_sheet = Ok df ->
  (exists s,
      locate_fields df (initial_result (basename lib file_path) target_sheet)
      = Ok s /\
      extract_invoice_data lib file_path = result s) /\
  extraction_status (extract_invoice_data lib file_path) = "Success" /\
  file_name (extract_invoice_data lib file_path) = basename lib file_path /\
  sheet_name (extract_invoice_data lib file_path) = target_sheet.
Proof.
  intros S T R.
  destruct (locate_fields_total df (basename lib file_path) target_sheet)
    as (s & L & E).
  assert (X : extract_invoice_data lib file_path = result s).
  { unfold extract_invoice_data, try_body. rewrite S. simpl. rewrite T. simpl.
    rewrite R. simpl. rewrite L. reflexivity. }
  split; [exists s; auto|]. rewrite X.
  destruct (scan_trace _ _ _ _ L) as [Rp _]. rewrite Rp.
  destruct (replay_identity (commits s)
              (initial_result (basename lib file_path) target_sheet))
    as (A & B & C).
  rewrite A, B, C. auto.
Qed.

(** X2.  When the workbook opens, the selector picks [target_sheet] and
    that sheet is read as the grid [df], the record returned is the
    record of the scan of [df]: its status is [Success], its file name
    the base name of the path and its sheet name [target_sheet]; the
    scan changes none of the three. *)
Theorem success_record (lib : Library) (file_path : string)
    (sheet_names : list string) (target_sheet : string) (df : Grid) :
  sheetnames lib file_path = Ok sheet_names ->
  select_sheet sheet_names = Ok target_sheet ->
  read_excel lib file_path target_sheet = Ok df ->
  (exists s,
      locate_fields df (initial_result (basename lib file_path) target_sheet)
      = Ok s /\
      extract_invoice_data lib file_path = result s) /\
  extraction_status (extract_invoice_data lib file_path) = "Success" /\
  file_name (extract_invoice_data lib file_path) = basename lib file_path /\
  sheet_name (extract_invoice_data lib file_path) = target_sheet.
Proof.
  intros S T R. exact (scan_of_readable_sheet lib file_path _ _ _ S T R).
Qed.

Lemma success_record_witness :
  extraction_status (extract_invoice_data sample_directory "inv/april.xlsx")
  = "Success" /\
  file_name (extract_invoice_data sample_directory "inv/april.xlsx")
  = "april.xlsx" /\
  sheet_name (extract_invoice_data sample_directory "inv/april.xlsx")
  = "01-07-2024".
Proof.
  apply (success_record sample_directory "inv/april.xlsx"
           ["book"; "01-07-2024"] "01-07-2024" sample_invoice);
    reflexivity.
Defined.

Lemma error_status_is_not_success (message : string) :
  String.eqb (String.append "Error: " message) "Success" = false.
Proof. reflexivity. Qed.

Lemma extract_cases (lib : Library) (file_path : string) :
  (is_success (extract_invoice_data lib file_path) = true /\
   forall message, ~ fails_with lib file_path message) \/
  (exists message,
      fails_with lib file_path message /\
      extract_invoice_data lib file_path
      = error_result (basename lib file_path) message).
Proof.
  destruct (try_body lib file_path) as [r | message] eqn:B.
  - left. split.
    + unfold extract_invoice_data. rewrite B.
      unfold try_body in B.
      destruct (sheetnames lib file_path) as [sheet_names|] eqn:S; [|discriminate].
      simpl in B.
      destruct (select_sheet sheet_names) as [target_sheet|] eqn:T; [|discriminate].
      simpl in B.
      destruct (read_excel lib file_path target_sheet) as [df|] eqn:R;
        [|discriminate].
      destruct (scan_of_readable_sheet lib file_path sheet_names target_sheet df
                  S T R) as (_ & St & _).
      unfold extract_invoice_data, try_body in St.
      rewrite S in St. simpl in St. rewrite T in St. simpl in St.
      rewrite R in St. rewrite B in St.
      unfold is_success. rewrite St. reflexivity.
    + intros message F. apply try_body_raises in F. congruence.
  - right. exists message. split; [apply try_body_raises; exact B|].
    unfold extract_invoice_data. rewrite B. reflexivity.
Qed.

(** X3.  The status of a returned record is [Success] exactly when the
    body of the [try] did not fail; the record of a failure never counts
    as a success, whatever the message of the exception. *)
Theorem status_success_iff (lib : Library) (file_path : string) :
  is_success (extract_invoice_data lib file_path) = true
  <-> (forall message, ~ fails_with lib file_path message).
Proof.
  split.
  - intros H message F.
    destruct (extract_cases lib file_path) as [[_ N] | (m & Fm & E)].
    + exact (N message F).
    + rewrite E in H. unfold is_success, error_result in H.
      cbn [extraction_status] in H.
      rewrite error_status_is_not_success in H. discriminate.
  - intros N. destruct (extract_cases lib file_path) as [[H _] | (m & Fm & _)].
    + exact H.
    + destruct (N m Fm).
Qed.

Lemma status_success_iff_witness :
  is_success (extract_invoice_data sample_directory "inv/april.xlsx") = true.
Proof.
  apply (status_success_iff sample_directory "inv/april.xlsx").
  intros message [F | [[F _] | (sheet_names & target_sheet & S & T & R)]].
  - vm_compute in F. discriminate.
  - vm_compute in F. discriminate.
  - vm_compute in S. injection S as <-.
    vm_compute in T. injection T as <-.
    vm_compute in R. discriminate.
Defined.

(** ** The batch *)

Lemma successful_extractions_from (all_results : list InvoiceRecord) (n : nat) :
  fold_left (fun n r => if is_success r then n + 1 else n) all_results n
  = n + length (filter is_success all_results).
Proof.
  revert n. induction all_results as [|r rest IH]; intros n; simpl; [lia|].
  rewrite IH. destruct (is_success r); simpl; lia.
Qed.

Lemma successful_extractions_count (all_results : list InvoiceRecord) :
  successful_extractions all_results = length (filter is_success all_results).
Proof.
  unfold successful_extractions. rewrite successful_extractions_from. lia.
Qed.

Lemma successful_extractions_le (all_results : list InvoiceRecord) :
  successful_extractions all_results <= length all_results.
Proof.
  rewrite successful_extractions_count. apply filter_length_le.
Qed.

(** A record with a field filled is the record of a success. *)
Lemma filled_field_is_success (lib : Library) (file_path : string) (f : Field) :
  get_field f (extract_invoice_data lib file_path) <> "" ->
  is_success (extract_invoice_data lib file_path) = true.
Proof.
  intros N. destruct (extract_cases lib file_path) as [[H _] | (m & _ & E)];
    [exact H|].
  exfalso. apply N. rewrite E. destruct f; reflexivity.
Qed.

Lemma filled_le_successful (lib : Library) (excel_files : list string)
    (f : Field) :
  filled f (map (extract_invoice_data lib) excel_files)
  <= successful_extractions (map (extract_invoice_data lib) excel_files).
Proof.
  rewrite successful_extractions_count. unfold filled.
  induction excel_files as [|file_path rest IH]; simpl; [lia|].
  destruct (String.eqb_spec (get_field f (extract_invoice_data lib file_path)) "")
    as [E | N]; simpl.
  - destruct (is_success (extract_invoice_data lib file_path)); simpl; lia.
  - rewrite (filled_field_is_success lib file_path f N). simpl. lia.
Qed.

(** ** Column 5 over the whole grid *)

Lemma scan_row_invoice_number (row_values : Row) (s : Scan) :
  invoice_number (result (scan_row row_values s))
  = match invoice_number_cell row_values with
    | Some v => v
    | None => invoice_number (result s)
    end.
Proof.
  unfold scan_row.
  rewrite (scan_cells_keeps_column5 InvoiceNumber row_values row_values 0
             (invoice_number_and_date row_values s) (or_introl eq_refl)
           : invoice_number _ = invoice_number _).
  unfold invoice_number_and_date, invoice_number_cell.
  destruct (5 <? length row_values); [|reflexivity]. cbv zeta.
  set (cell_value := Py.strip (nth 5 row_values "")).
  destruct (Py.contains "SSH" cell_value && Py.contains "/" cell_value).
  - destruct (Py.re_match_date cell_value); [|apply invoice_number_assigned].
    destruct (Py.is_empty _); [|apply invoice_number_assigned].
    destruct (invoice_date_assigned (Py.split_space_head cell_value)
                (assign InvoiceNumber cell_value s)) as [_ K].
    rewrite K. apply invoice_number_assigned.
  - destruct (Py.re_match_date cell_value); [|reflexivity].
    destruct (Py.is_empty _); [|reflexivity].
    apply invoice_date_assigned.
Qed.

Lemma scan_row_invoice_date (row_values : Row) (s : Scan) :
  invoice_date (result (scan_row row_values s))
  = match invoice_date_cell row_values with
    | Some v =>
        if Py.is_empty (invoice_date (result s)) then v
        else invoice_date (result s)
    | None => invoice_date (result s)
    end.
Proof.
  unfold scan_row.
  rewrite (scan_cells_keeps_column5 InvoiceDate row_values row_values 0
             (invoice_number_and_date row_values s) (or_intror eq_refl)
           : invoice_date _ = invoice_date _).
  unfold invoice_number_and_date, invoice_date_cell.
  destruct (5 <? length row_values); [|reflexivity]. cbv zeta.
  set (cell_value := Py.strip (nth 5 row_values "")).
  set (s1 := if Py.contains "SSH" cell_value && Py.contains "/" cell_value
             then assign InvoiceNumber cell_value s else s).
  assert (E : invoice_date (result s1) = invoice_date (result s)).
  { subst s1. destruct (Py.contains "SSH" cell_value && Py.contains "/" cell_value);
      [apply invoice_number_assigned | reflexivity]. }
  destruct (Py.re_match_date cell_value); [|exact E].
  rewrite E. destruct (Py.is_empty (invoice_date (result s))); [|exact E].
  apply invoice_date_assigned.
Qed.

(** The block after the loop leaves the fields of the loop as they are. *)
Lemma loop_fields_after_block (f : Field) (df : Grid) (r : InvoiceRecord)
    (s : Scan) :
  locate_fields df r = Ok s ->
  loop_field f ->
  get_field f (result s) = get_field f (result (scan_rows df (start r))).
Proof.
  unfold locate_fields, post_processing.
  set (s0 := scan_rows df (start r)).
  intros L H.
  destruct (Py.truthy (gross_total_after_tax (result s0))
            && negb (Py.truthy (total_value (result s0))));
    [|injection L as <-; reflexivity].
  destruct (rev df) as [|row_values others]; [discriminate|].
  injection L as <-.
  apply (extends_untouched header_commit header_field).
  - intros r' c [_ K]. exact K.
  - unfold loop_field, header_field in *. intros K.
    destruct H as [-> | [-> | [-> | ->]]];
      destruct K as [K | [K | [K | [K | K]]]]; discriminate.
  - eapply extends_trans;
      [apply name_and_gstin_extends | apply vendor_and_po_extends].
Qed.

Lemma invoice_number_without_candidates (df : Grid) (s : Scan) :
  Forall (fun row => invoice_number_cell row = None) df ->
  invoice_number (result (scan_rows df s)) = invoice_number (result s).
Proof.
  intros H. revert s. induction H as [|row rest N _ IH]; intros s; simpl;
    [reflexivity|].
  rewrite IH, scan_row_invoice_number, N. reflexivity.
Qed.

Lemma invoice_date_without_candidates (df : Grid) (s : Scan) :
  Forall (fun row => invoice_date_cell row = None) df ->
  invoice_date (result (scan_rows df s)) = invoice_date (result s).
Proof.
  intros H. revert s. induction H as [|row rest N _ IH]; intros s; simpl;
    [reflexivity|].
  rewrite IH, scan_row_invoice_date, N. reflexivity.
Qed.

Lemma invoice_date_once_set (df : Grid) (s : Scan) :
  invoice_date (result s) <> "" ->
  invoice_date (result (scan_rows df s)) = invoice_date (result s).
Proof.
  revert s. induction df as [|row rest IH]; intros s N; simpl; [reflexivity|].
  assert (E : invoice_date (result (scan_row row s)) = invoice_date (result s)).
  { rewrite scan_row_invoice_date.
    destruct (invoice_date_cell row); [|reflexivity].
    destruct (Py.is_empty (invoice_date (result s))) eqn:Z; [|reflexivity].
    apply is_empty_true in Z. contradiction. }
  rewrite IH; [exact E | rewrite E; exact N].
Qed.

Lemma invoice_date_cell_not_empty (row_values : Row) (v : string) :
  invoice_date_cell row_values = Some v -> v <> "".
Proof.
  unfold invoice_date_cell.
  destruct (5 <? length row_values); [|discriminate]. cbv zeta.
  destruct (Py.re_match_date _) eqn:D; [|discriminate].
  intros H. injection H as <-. apply date_head_not_empty. exact D.
Qed.

(** X6.  The invoice number of the record is the candidate of the last
    row that has one: a row whose column 5, trimmed, contains [SSH] and
    [/] decides it when no row below has such a cell, and with no such
    row in the grid the invoice number is empty. *)
Theorem last_invoice_number_wins (df : Grid) (file sheet : string) :
  exists s,
    locate_fields df (initial_result file sheet) = Ok s /\
    (forall before row_values after v,
        df = before ++ row_values :: after ->
        invoice_number_cell row_values = Some v ->
        Forall (fun row => invoice_number_cell row = None) after ->
        invoice_number (result s) = v) /\
    (Forall (fun row => invoice_number_cell row = None) df ->
     invoice_number (result s) = "").
Proof.
  destruct (locate_fields_total df file sheet) as (s & L & _).
  exists s. split; [exact L|].
  assert (K : invoice_number (result s)
              = invoice_number (result (scan_rows df (start (initial_result file sheet))))).
  { apply (loop_fields_after_block InvoiceNumber df _ s L).
    unfold loop_field. tauto. }
  rewrite K. split.
  - intros before row_values after v -> C A.
    rewrite scan_rows_app. simpl.
    rewrite (invoice_number_without_candidates after _ A).
    rewrite scan_row_invoice_number, C. reflexivity.
  - intros A. rewrite (invoice_number_without_candidates df _ A). reflexivity.
Qed.

Lemma last_invoice_number_wins_witness :
  exists s,
    locate_fields two_invoice_numbers (initial_result "april.xlsx" "01-07-2024")
    = Ok s /\
    invoice_number (result s) = "SSH/002".
Proof.
  destruct (last_invoice_number_wins two_invoice_numbers
              "april.xlsx" "01-07-2024") as (s & L & W & _).
  exists s. split; [exact L|].
  apply (W [[""; ""; ""; ""; ""; "SSH/001"]]
           [""; ""; ""; ""; ""; "SSH/002"] []).
  - reflexivity.
  - reflexivity.
  - constructor.
Defined.

(** X7.  The invoice date of the record is the candidate of the first
    row that has one: a row whose column 5, trimmed, starts with the
    date pattern decides it when no row above has such a cell, whatever
    the rows below hold; with no such row the invoice date is empty. *)
Theorem first_invoice_date_wins (df : Grid) (file sheet : string) :
  exists s,
    locate_fields df (initial_result file sheet) = Ok s /\
    (forall before row_values after v,
        df = before ++ row_values :: after ->
        Forall (fun row => invoice_date_cell row = None) before ->
        invoice_date_cell row_values = Some v ->
        invoice_date (result s) = v) /\
    (Forall (fun row => invoice_date_cell row = None) df ->
     invoice_date (result s) = "").
Proof.
  destruct (locate_fields_total df file sheet) as (s & L & _).
  exists s. split; [exact L|].
  assert (K : invoice_date (result s)
              = invoice_date (result (scan_rows df (start (initial_result file sheet))))).
  { apply (loop_fields_after_block InvoiceDate df _ s L).
    unfold loop_field. tauto. }
  rewrite K. split.
  - intros before row_values after v -> B C.
    rewrite scan_rows_app. simpl.
    set (s0 := scan_rows before (start (initial_result file sheet))).
    assert (Z : invoice_date (result s0) = "")
      by (subst s0; rewrite (invoice_date_without_candidates before _ B);
          reflexivity).
    assert (E : invoice_date (result (scan_row row_values s0)) = v)
      by (rewrite scan_row_invoice_date, C, Z; reflexivity).
    rewrite invoice_date_once_set; [exact E|].
    rewrite E. apply (invoice_date_cell_not_empty row_values). exact C.
  - intros A. rewrite (invoice_date_without_candidates df _ A). reflexivity.
Qed.

Lemma first_invoice_date_wins_witness :
  exists s,
    locate_fields two_dates (initial_result "april.xlsx" "01-07-2024") = Ok s /\
    invoice_date (result s) = "2024-07-01".
Proof.
  destruct (first_invoice_date_wins two_dates "april.xlsx" "01-07-2024")
    as (s & L & W & _).
  exists s. split; [exact L|].
  apply (W [] [""; ""; ""; ""; ""; "2024-07-01 00:00:00"]
           [[""; ""; ""; ""; ""; "2025-01-02 00:00:00"]]).
  - reflexivity.
  - constructor.
  - reflexivity.
Defined.

(** ** The shape of the invoice date *)

Lemma no_space_head (s : string) : no_space (Py.split_space_head s) = true.
Proof.
  induction s as [|c r IH]; simpl; [reflexivity|].
  destruct (Ascii.eqb c " ") eqn:E; simpl; [reflexivity|].
  rewrite E, IH. reflexivity.
Qed.

Lemma all_digits_head (n : nat) (s r : string) :
  Py.all_digits n s = Some r ->
  Py.all_digits n (Py.split_space_head s) = Some (Py.split_space_head r).
Proof.
  revert s. induction n as [|n IH]; intros s; simpl.
  - intros H. injection H as <-. reflexivity.
  - destruct s as [|c t]; [discriminate|].
    destruct (Py.isdigit c) eqn:D; [|discriminate].
    intros H. simpl. rewrite (digit_is_not_space c D). simpl. rewrite D.
    apply IH. exact H.
Qed.

Lemma expect_hyphen_head (s r : string) :
  Py.expect "-" s = Some r ->
  Py.expect "-" (Py.split_space_head s) = Some (Py.split_space_head r).
Proof.
  destruct s as [|c t]; [discriminate|].
  unfold Py.expect at 1.
  destruct (Ascii.eqb "-" c) eqn:E; [|discriminate].
  apply Ascii.eqb_eq in E. subst c.
  intros H. injection H as <-. reflexivity.
Qed.

Lemma date_head_matches (s : string) :
  Py.re_match_date s = true ->
  Py.re_match_date (Py.split_space_head s) = true.
Proof.
  unfold Py.re_match_date. cbn [Py.bind].
  destruct (Py.all_digits 4 s) as [s1|] eqn:A; [|discriminate].
  rewrite (all_digits_head 4 s s1 A). cbn [Py.bind].
  destruct (Py.expect "-" s1) as [s2|] eqn:B; [|discriminate].
  rewrite (expect_hyphen_head s1 s2 B). cbn [Py.bind].
  destruct (Py.all_digits 2 s2) as [s3|] eqn:C; [|discriminate].
  rewrite (all_digits_head 2 s2 s3 C). cbn [Py.bind].
  destruct (Py.expect "-" s3) as [s4|] eqn:D; [|discriminate].
  rewrite (expect_hyphen_head s3 s4 D). cbn [Py.bind].
  destruct (Py.all_digits 2 s4) as [s5|] eqn:E; [|discriminate].
  rewrite (all_digits_head 2 s4 s5 E). reflexivity.
Qed.

Lemma invoice_date_cell_shape (row_values : Row) (v : string) :
  invoice_date_cell row_values = Some v ->
  Py.re_match_date v = true /\ no_space v = true.
Proof.
  unfold invoice_date_cell.
  destruct (5 <? length row_values); [|discriminate]. cbv zeta.
  destruct (Py.re_match_date _) eqn:D; [|discriminate].
  intros H. injection H as <-.
  split; [apply date_head_matches; exact D | apply no_space_head].
Qed.

Lemma scan_rows_date_shape (df : Grid) (s : Scan) :
  invoice_date (result s) = "" \/
  (Py.re_match_date (invoice_date (result s)) = true /\
   no_space (invoice_date (result s)) = true) ->
  invoice_date (result (scan_rows df s)) = "" \/
  (Py.re_match_date (invoice_date (result (scan_rows df s))) = true /\
   no_space (invoice_date (result (scan_rows df s))) = true).
Proof.
  revert s. induction df as [|row rest IH]; intros s H; simpl; [exact H|].
  apply IH. rewrite scan_row_invoice_date.
  destruct (invoice_date_cell row) as [v|] eqn:C; [|exact H].
  destruct (Py.is_empty (invoice_date (result s))); [|exact H].
  right. apply (invoice_date_cell_shape row). exact C.
Qed.

(** X8.  The invoice date of a scanned record is empty, or it starts
    with four digits, a hyphen, two digits, a hyphen and two digits and
    holds no space: the time of day that follows a space is cut off. *)
Theorem invoice_date_shape (df : Grid) (file sheet : string) :
  exists s,
    locate_fields df (initial_result file sheet) = Ok s /\
    (invoice_date (result s) = "" \/
     (Py.re_match_date (invoice_date (result s)) = true /\
      no_space (invoice_date (result s)) = true)).
Proof.
  destruct (locate_fields_total df file sheet) as (s & L & _).
  exists s. split; [exact L|].
  assert (K : invoice_date (result s)
              = invoice_date (result (scan_rows df (start (initial_result file sheet))))).
  { apply (loop_fields_after_block InvoiceDate df _ s L).
    unfold loop_field. tauto. }
  rewrite K. apply scan_rows_date_shape. left. reflexivity.
Qed.

(** ** Rows too short for column 5 *)

Lemma short_row_no_candidates (row_values : Row) :
  length row_values <= 5 ->
  invoice_number_cell row_values = None /\ invoice_date_cell row_values = None.
Proof.
  intros H. unfold invoice_number_cell, invoice_date_cell.
  assert (E : (5 <? length row_values) = false) by (apply Nat.ltb_ge; exact H).
  rewrite E. auto.
Qed.

Lemma vendor_and_po_short_row (row_values : Row) (s : Scan) :
  length row_values <= 5 -> vendor_and_po row_values s = s.
Proof.
  intros H. unfold vendor_and_po.
  assert (E : (5 <? length row_values) = false) by (apply Nat.ltb_ge; exact H).
  rewrite E. reflexivity.
Qed.

(** The lines 136-148 assign to [company_name] and [gstin] only. *)
Lemma name_and_gstin_others (f : Field) (row_values : Row) (s : Scan) :
  f <> CompanyName -> f <> Gstin ->
  get_field f (result (name_and_gstin row_values s)) = get_field f (result s).
Proof.
  intros N1 N2. unfold name_and_gstin.
  destruct (0 <? length row_values); [|reflexivity]. cbv zeta.
  set (s1 := if Py.startswith "Name  :" _ then _ else s).
  assert (E : get_field f (result s1) = get_field f (result s)).
  { subst s1. destruct (Py.startswith "Name  :" _); [|reflexivity].
    destruct (Py.truthy _); [|reflexivity].
    apply get_set_other. exact N1. }
  destruct (Py.startswith "GSTIN :" _); [|exact E].
  destruct (Py.truthy _ && _); [|exact E].
  simpl. rewrite get_set_other by exact N2. exact E.
Qed.

(** The lines 150-162 assign to [vendor_code], [po_number] and [po_date]
    only. *)
Lemma vendor_and_po_others (f : Field) (row_values : Row) (s : Scan) :
  f <> VendorCode -> f <> PoNumber -> f <> PoDate ->
  get_field f (result (vendor_and_po row_values s)) = get_field f (result s).
Proof.
  intros N1 N2 N3. unfold vendor_and_po.
  destruct (5 <? length row_values); [|reflexivity].
  destruct (3 <? length row_values); [|reflexivity]. cbv zeta.
  destruct (Py.contains "Vendor Code" _ && _); [apply get_set_other; exact N1|].
  destruct (Py.contains "PO Date" _ && _); [apply get_set_other; exact N2|].
  destruct (Py.contains "Purchase Order No" _ && _); [|reflexivity].
  destruct (Py.re_match_date _); [|reflexivity].
  apply get_set_other. exact N3.
Qed.

(** What [locate_fields] returns: the state the loop left, or that state
    after the block of lines 136-162 on the last row. *)
Lemma locate_fields_cases (df : Grid) (r : InvoiceRecord) (s : Scan) :
  locate_fields df r = Ok s ->
  s = scan_rows df (start r) \/
  exists last_row others,
    rev df = last_row :: others /\
    s = vendor_and_po last_row (name_and_gstin last_row (scan_rows df (start r))).
Proof.
  unfold locate_fields, post_processing.
  destruct (Py.truthy _ && negb _).
  - destruct (rev df) as [|last_row others]; [discriminate|].
    intros H. injection H as <-. right. exists last_row, others. auto.
  - intros H. injection H as <-. left. reflexivity.
Qed.

Lemma rev_head_in (df : Grid) (last_row : Row) (others : list Row) :
  rev df = last_row :: others -> In last_row df.
Proof.
  intros H. apply in_rev. rewrite H. left. reflexivity.
Qed.

(** X9.  A grid whose rows all have at most 5 cells has no column 5:
    the scan returns a record with [invoice_number], [invoice_date],
    [vendor_code], [po_number] and [po_date] empty. *)
Theorem narrow_grid_has_no_column5 (df : Grid) (file sheet : string) :
  Forall (fun row => length row <= 5) df ->
  exists s,
    locate_fields df (initial_result file sheet) = Ok s /\
    invoice_number (result s) = "" /\ invoice_date (result s) = "" /\
    vendor_code (result s) = "" /\ po_number (result s) = "" /\
    po_date (result s) = "".
Proof.
  intros H.
  destruct (locate_fields_total df file sheet) as (s & L & _).
  exists s. split; [exact L|].
  set (r0 := initial_result file sheet) in *.
  assert (Kn : get_field InvoiceNumber (result s)
               = get_field InvoiceNumber (result (scan_rows df (start r0))))
    by (apply (loop_fields_after_block InvoiceNumber df _ s L);
        unfold loop_field; tauto).
  assert (Kd : get_field InvoiceDate (result s)
               = get_field InvoiceDate (result (scan_rows df (start r0))))
    by (apply (loop_fields_after_block InvoiceDate df _ s L);
        unfold loop_field; tauto).
  simpl in Kn, Kd. rewrite Kn, Kd.
  rewrite invoice_number_without_candidates, invoice_date_without_candidates;
    try (eapply Forall_impl; [|exact H]; intros row Hr;
         apply short_row_no_candidates; exact Hr).
  split; [reflexivity|]. split; [reflexivity|].
  assert (V : forall f, f = VendorCode \/ f = PoNumber \/ f = PoDate ->
                        get_field f (result s) = "").
  { intros f Hf.
    assert (Z : get_field f (result (scan_rows df (start r0))) = "").
    { rewrite header_fields_after_loop
        by (unfold header_field; tauto).
      destruct Hf as [-> | [-> | ->]]; reflexivity. }
    destruct (locate_fields_cases df r0 s L) as [-> | (last_row & others & R & ->)];
      [exact Z|].
    rewrite vendor_and_po_short_row.
    - rewrite name_and_gstin_others;
        [exact Z | | ]; destruct Hf as [-> | [-> | ->]]; discriminate.
    - apply rev_head_in in R. rewrite Forall_forall in H. apply H. exact R. }
  repeat split;
    [apply (V VendorCode) | apply (V PoNumber) | apply (V PoDate)]; tauto.
Qed.

Lemma narrow_grid_has_no_column5_witness :
  exists s,
    locate_fields [["SSH/001"; "2024-07-01"; "Vendor Code"; "VC-102"; ""]]
      (initial_result "april.xlsx" "01-07-2024") = Ok s /\
    invoice_number (result s) = "" /\ invoice_date (result s) = "" /\
    vendor_code (result s) = "" /\ po_number (result s) = "" /\
    po_date (result s) = "".
Proof.
  apply (narrow_grid_has_no_column5
           [["SSH/001"; "2024-07-01"; "Vendor Code"; "VC-102"; ""]]).
  repeat constructor.
Defined.

(** ** The block after the loop reads the last row *)

Lemma name_and_gstin_company_name (row_values : Row) (s : Scan) :
  company_name (result (name_and_gstin row_values s)) = company_name (result s) \/
  (Py.startswith "Name  :" (Py.strip (nth 0 row_values "")) = true /\
   company_name (result (name_and_gstin row_values s))
   = Py.strip (Py.replace_with_empty "Name  :" (Py.strip (nth 0 row_values "")))).
Proof.
  unfold name_and_gstin.
  destruct (0 <? length row_values); [|left; reflexivity]. cbv zeta.
  set (cell_value := Py.strip (nth 0 row_values "")).
  set (s1 := if Py.startswith "Name  :" cell_value then _ else s).
  assert (E : company_name (result s1) = company_name (result s) \/
              (Py.startswith "Name  :" cell_value = true /\
               company_name (result s1)
               = Py.strip (Py.replace_with_empty "Name  :" cell_value))).
  { subst s1. destruct (Py.startswith "Name  :" cell_value); [|left; reflexivity].
    destruct (Py.truthy _); [|left; reflexivity].
    right. split; [reflexivity|].
    apply (get_set_field CompanyName CompanyName). }
  destruct (Py.startswith "GSTIN :" cell_value); [|exact E].
  destruct (Py.truthy _ && _); [|exact E].
  assert (K : forall v t, company_name (result (assign Gstin v t))
                          = company_name (result t))
    by (intros v t; apply (get_set_other CompanyName Gstin); discriminate).
  rewrite K. exact E.
Qed.

Lemma name_and_gstin_gstin (row_values : Row) (s : Scan) :
  gstin (result (name_and_gstin row_values s)) = gstin (result s) \/
  (Py.startswith "GSTIN :" (Py.strip (nth 0 row_values "")) = true /\
   10 < String.length (gstin (result (name_and_gstin row_values s))) /\
   gstin (result (name_and_gstin row_values s))
   = Py.strip (Py.replace_with_empty "GSTIN :" (Py.strip (nth 0 row_values "")))).
Proof.
  unfold name_and_gstin.
  destruct (0 <? length row_values); [|left; reflexivity]. cbv zeta.
  set (cell_value := Py.strip (nth 0 row_values "")).
  set (s1 := if Py.startswith "Name  :" cell_value then _ else s).
  assert (E : gstin (result s1) = gstin (result s)).
  { subst s1. destruct (Py.startswith "Name  :" cell_value); [|reflexivity].
    destruct (Py.truthy _); [|reflexivity].
    apply (get_set_other Gstin CompanyName). discriminate. }
  destruct (Py.startswith "GSTIN :" cell_value); [|left; exact E].
  destruct (Py.truthy _ && (10 <? _)) eqn:T; [|left; exact E].
  apply andb_true_iff in T. destruct T as [_ T]. apply Nat.ltb_lt in T.
  right. split; [reflexivity|].
  assert (K : forall v t, gstin (result (assign Gstin v t)) = v)
    by (intros v t; apply (get_set_field Gstin Gstin)).
  rewrite K. split; [exact T | reflexivity].
Qed.

(** X10.  The company name and the GSTIN of a scanned record, when not
    empty, come from column 0 of the last row of the grid: the trimmed
    cell starts with the label, and the value is the cell without the
    label, trimmed; a GSTIN in the record is longer than 10 characters.
    No other row can provide them. *)
Theorem header_from_last_row (df : Grid) (file sheet : string) :
  exists s,
    locate_fields df (initial_result file sheet) = Ok s /\
    (company_name (result s) = "" \/
     exists last_row others,
       rev df = last_row :: others /\
       Py.startswith "Name  :" (Py.strip (nth 0 last_row "")) = true /\
       company_name (result s)
       = Py.strip (Py.replace_with_empty "Name  :" (Py.strip (nth 0 last_row "")))) /\
    (gstin (result s) = "" \/
     exists last_row others,
       rev df = last_row :: others /\
       Py.startswith "GSTIN :" (Py.strip (nth 0 last_row "")) = true /\
       10 < String.length (gstin (result s)) /\
       gstin (result s)
       = Py.strip (Py.replace_with_empty "GSTIN :" (Py.strip (nth 0 last_row "")))).
Proof.
  destruct (locate_fields_total df file sheet) as (s & L & _).
  exists s. split; [exact L|].
  set (r0 := initial_result file sheet) in *.
  assert (Zc : company_name (result (scan_rows df (start r0))) = "")
    by (apply (header_fields_after_loop CompanyName df (start r0));
        unfold header_field; tauto).
  assert (Zg : gstin (result (scan_rows df (start r0))) = "")
    by (apply (header_fields_after_loop Gstin df (start r0));
        unfold header_field; tauto).
  destruct (locate_fields_cases df r0 s L) as [-> | (last_row & others & R & ->)];
    [auto|].
  split.
  - rewrite (vendor_and_po_others CompanyName last_row _
               ltac:(discriminate) ltac:(discriminate) ltac:(discriminate)
             : company_name _ = company_name _).
    destruct (name_and_gstin_company_name last_row (scan_rows df (start r0)))
      as [E | [A B]].
    + left. rewrite E. exact Zc.
    + right. exists last_row, others. auto.
  - rewrite (vendor_and_po_others Gstin last_row _
               ltac:(discriminate) ltac:(discriminate) ltac:(discriminate)
             : gstin _ = gstin _).
    destruct (name_and_gstin_gstin last_row (scan_rows df (start r0)))
      as [E | (A & B & C)].
    + left. rewrite E. exact Zg.
    + right. exists last_row, others. auto.
Qed.

(** ** The keywords of the total *)

Lemma prefix_elim (k s : string) :
  String.prefix k s = true -> exists y, s = String.append k y.
Proof.
  revert s. induction k as [|a k IH]; intros s.
  - intros _. exists s. reflexivity.
  - destruct s as [|b s]; simpl; [discriminate|].
    destruct (ascii_dec a b) as [<- | _]; [|discriminate].
    intros H. destruct (IH s H) as [y ->]. exists y. reflexivity.
Qed.

Lemma prefix_intro (k y : string) : String.prefix k (String.append k y) = true.
Proof.
  induction k as [|a k IH]; simpl; [destruct y; reflexivity|].
  destruct (ascii_dec a a) as [_ | N]; [exact IH | contradiction].
Qed.

Lemma append_assoc (a b c : string) :
  String.append (String.append a b) c = String.append a (String.append b c).
Proof. induction a as [|x a IH]; simpl; [reflexivity | rewrite IH; reflexivity]. Qed.

Lemma contains_intro (k x y : string) :
  Py.contains k (String.append x (String.append k y)) = true.
Proof.
  induction x as [|c x IH]; simpl.
  - pose proof (prefix_intro k y) as H.
    destruct (String.append k y) as [|c r].
    + destruct k; [reflexivity | discriminate H].
    + change (String.prefix k (String c r) || Py.contains k r = true).
      rewrite H. reflexivity.
  - rewrite IH. apply orb_true_r.
Qed.

Lemma contains_elim (k s : string) :
  Py.contains k s = true ->
  exists x y, s = String.append x (String.append k y).
Proof.
  induction s as [|c s IH]; intros H.
  - change (String.prefix k "" || false = true) in H.
    rewrite orb_false_r in H. apply prefix_elim in H.
    destruct H as [y ->]. exists "", y. reflexivity.
  - change (String.prefix k (String c s) || Py.contains k s = true) in H.
    apply orb_true_iff in H. destruct H as [H | H].
    + apply prefix_elim in H. destruct H as [y ->]. exists "", y. reflexivity.
    + destruct (IH H) as (x & y & ->). exists (String c x), y. reflexivity.
Qed.

(** A text that holds [a ++ k ++ b] holds [k]. *)
Lemma contains_part (a k b s : string) :
  Py.contains (String.append a (String.append k b)) s = true ->
  Py.contains k s = true.
Proof.
  intros H. apply contains_elim in H. destruct H as (x & y & ->).
  rewrite append_assoc, <- (append_assoc x a).
  rewrite (append_assoc k b y). apply contains_intro.
Qed.

(** A text that holds [k] still holds it with text around it. *)
Lemma contains_around (k x s y : string) :
  Py.contains k s = true ->
  Py.contains k (String.append x (String.append s y)) = true.
Proof.
  intros H. apply contains_elim in H. destruct H as (a & b & ->).
  rewrite (append_assoc a), (append_assoc k b y), <- (append_assoc x a).
  apply contains_intro.
Qed.

Lemma total_value_scan_cases (window : list string) (s : Scan) :
  total_value_scan window s = s \/
  exists cell,
    In cell window /\
    total_value_scan window s = assign TotalValue (Py.strip cell) s /\
    Py.strip cell <> "".
Proof.
  induction window as [|cell rest IH]; simpl; [left; reflexivity|].
  assert (IH' : total_value_scan rest s = s \/
                exists c, (cell = c \/ In c rest) /\
                  total_value_scan rest s = assign TotalValue (Py.strip c) s /\
                  Py.strip c <> "").
  { destruct IH as [E | (c & I & E & N)]; [left; exact E|].
    right. exists c. auto. }
  destruct (looks_numeric (Py.strip cell)) eqn:Ln; [|exact IH'].
  destruct (to_float (Py.strip cell)) as [x|]; [|exact IH'].
  destruct (Py.gt_100 x && negb (Py.truthy (total_value (result s))));
    [|exact IH'].
  right. exists cell. split; [left; reflexivity|]. split; [reflexivity|].
  intros Z. rewrite Z in Ln. discriminate.
Qed.

Lemma total_keyword_loop_collapses (keywords : list string)
    (cell_upper : string) (window : list string) (s : Scan) :
  total_keyword_loop keywords cell_upper window s
  = if existsb (fun keyword => Py.contains keyword cell_upper) keywords
       && negb (Py.contains "GROSS" cell_upper)
    then total_value_scan window s
    else s.
Proof.
  induction keywords as [|keyword rest IH];
    cbn [total_keyword_loop existsb]; [reflexivity|].
  destruct (Py.contains "GROSS" cell_upper) eqn:G; cbn [negb] in *.
  - rewrite !andb_false_r in *. exact IH.
  - rewrite !andb_true_r in *.
    destruct (Py.contains keyword cell_upper); cbn [orb]; [|exact IH].
    destruct (total_value_scan_cases window s) as [E | (cell & _ & E & N)].
    + rewrite E. destruct (Py.truthy (total_value (result s))); [reflexivity|].
      rewrite IH.
      destruct (existsb _ rest); [exact E | reflexivity].
    + rewrite E.
      assert (T : total_value (result (assign TotalValue (Py.strip cell) s))
                  = Py.strip cell)
        by apply (get_set_field TotalValue TotalValue).
      rewrite T. apply truthy_true in N. rewrite N. reflexivity.
Qed.

(** X11.  The five keywords of the total and their order come to one
    test: the cells to the right of a cell are scanned for a total, and
    scanned once, exactly when the cell, in upper case, holds [TOTAL],
    [AMOUNT] or [VALUE] and does not hold [GROSS]. *)
Theorem total_keywords_collapse (cell_upper : string) (window : list string)
    (s : Scan) :
  total_keyword_loop total_keywords cell_upper window s
  = if (Py.contains "TOTAL" cell_upper || Py.contains "AMOUNT" cell_upper
        || Py.contains "VALUE" cell_upper)
       && negb (Py.contains "GROSS" cell_upper)
    then total_value_scan window s
    else s.
Proof.
  rewrite total_keyword_loop_collapses. unfold total_keywords. simpl existsb.
  assert (A : Py.contains "TOTAL VALUE" cell_upper = true ->
              Py.contains "TOTAL" cell_upper = true)
    by apply (contains_part "" "TOTAL" " VALUE").
  assert (B : Py.contains "TOTAL AMOUNT" cell_upper = true ->
              Py.contains "TOTAL" cell_upper = true)
    by apply (contains_part "" "TOTAL" " AMOUNT").
  destruct (Py.contains "TOTAL VALUE" cell_upper);
    destruct (Py.contains "TOTAL AMOUNT" cell_upper);
    destruct (Py.contains "TOTAL" cell_upper);
    try reflexivity;
    try (specialize (A eq_refl); discriminate);
    try (specialize (B eq_refl); discriminate);
    destruct (Py.contains "AMOUNT" cell_upper);
    destruct (Py.contains "VALUE" cell_upper); reflexivity.
Qed.

(** ** Rows without a word for a total *)

Lemma lstrip_decomp (s : string) : exists a, s = String.append a (Py.lstrip s).
Proof.
  induction s as [|c r [a IH]]; simpl; [exists ""; reflexivity|].
  destruct (Py.isspace c).
  - exists (String c a). simpl. rewrite <- IH. reflexivity.
  - exists "". reflexivity.
Qed.

Lemma rstrip_decomp (s : string) : exists b, s = String.append (Py.rstrip s) b.
Proof.
  induction s as [|c r [b IH]]; simpl; [exists ""; reflexivity|].
  destruct (Py.isspace c && Py.is_empty (Py.rstrip r)) eqn:E.
  - exists (String c r). reflexivity.
  - exists b. simpl. rewrite <- IH. reflexivity.
Qed.

Lemma strip_decomp (s : string) :
  exists a b, s = String.append a (String.append (Py.strip s) b).
Proof.
  destruct (lstrip_decomp s) as [a A].
  destruct (rstrip_decomp (Py.lstrip s)) as [b B].
  exists a, b. unfold Py.strip. rewrite <- B. exact A.
Qed.

Lemma upper_app (a b : string) :
  Py.upper (String.append a b) = String.append (Py.upper a) (Py.upper b).
Proof. induction a as [|c a IH]; simpl; [reflexivity | rewrite IH; reflexivity]. Qed.

Lemma append_empty_r (a : string) : String.append a "" = a.
Proof. induction a as [|c a IH]; simpl; [reflexivity | rewrite IH; reflexivity]. Qed.

Lemma join_decomp (row_values : Row) (cell : string) :
  In cell row_values ->
  exists a b, Py.join_space row_values = String.append a (String.append cell b).
Proof.
  unfold Py.join_space.
  induction row_values as [|h t IH]; intros H; [contradiction|].
  destruct H as [-> | H].
  - destruct t as [|h' t']; simpl.
    + exists "", "". simpl. rewrite append_empty_r. reflexivity.
    + exists "", (String.append " " (String.concat " " (h' :: t'))). reflexivity.
  - destruct t as [|h' t']; [contradiction|].
    destruct (IH H) as (a & b & E).
    exists (String.append h (String.append " " a)), b.
    change (String.concat " " (h :: h' :: t'))
      with (String.append h (String.append " " (String.concat " " (h' :: t')))).
    rewrite E. rewrite !append_assoc. reflexivity.
Qed.

(** A word of a trimmed cell, in upper case, is in the row text of
    line 114. *)
Lemma cell_word_in_row (k : string) (row_values : Row) (cell : string) :
  In cell row_values ->
  Py.contains k (Py.upper (Py.strip cell)) = true ->
  Py.contains k (Py.upper (Py.join_space row_values)) = true.
Proof.
  intros I H.
  destruct (join_decomp row_values cell I) as (a & b & ->).
  destruct (strip_decomp cell) as (x & y & E).
  rewrite E. rewrite !upper_app.
  apply contains_around. apply contains_around. exact H.
Qed.

Lemma mentions_total_false (row_values : Row) :
  mentions_total row_values = false ->
  Py.contains "TOTAL" (Py.upper (Py.join_space row_values)) = false /\
  Py.contains "AMOUNT" (Py.upper (Py.join_space row_values)) = false /\
  Py.contains "VALUE" (Py.upper (Py.join_space row_values)) = false.
Proof.
  unfold mentions_total. cbv zeta. intros H.
  apply orb_false_iff in H. destruct H as [H C].
  apply orb_false_iff in H. destruct H as [A B]. auto.
Qed.

Lemma scan_cell_without_total_words (row_values : Row) (col_idx : nat)
    (cell_value : string) (s : Scan) :
  mentions_total row_values = false ->
  In cell_value row_values ->
  scan_cell row_values col_idx cell_value s = s.
Proof.
  intros M I. destruct (mentions_total_false row_values M) as (A & B & C).
  assert (W : forall k,
             Py.contains k (Py.upper (Py.join_space row_values)) = false ->
             Py.contains k (Py.upper (Py.strip cell_value)) = false).
  { intros k F. destruct (Py.contains k (Py.upper (Py.strip cell_value))) eqn:E;
      [|reflexivity].
    rewrite (cell_word_in_row k row_values cell_value I E) in F. discriminate. }
  unfold scan_cell. cbv zeta.
  assert (G : gross_total_label row_values col_idx (Py.strip cell_value) s = s).
  { unfold gross_total_label.
    destruct (Py.contains "GROSS TOTAL AFTER" (Py.upper (Py.strip cell_value)))
      eqn:E; [|reflexivity].
    apply (contains_part "GROSS " "TOTAL" " AFTER") in E.
    rewrite (W "TOTAL" A) in E. discriminate. }
  rewrite G.
  assert (K : total_keyword_loop total_keywords (Py.upper (Py.strip cell_value))
                (adjacent row_values col_idx) s = s).
  { rewrite total_keyword_loop_collapses. unfold total_keywords.
    cbn [existsb].
    assert (TV : Py.contains "TOTAL VALUE" (Py.upper (Py.strip cell_value)) = false).
    { destruct (Py.contains "TOTAL VALUE" _) eqn:E; [|reflexivity].
      apply (contains_part "" "TOTAL" " VALUE") in E.
      rewrite (W "TOTAL" A) in E. discriminate. }
    assert (TA : Py.contains "TOTAL AMOUNT" (Py.upper (Py.strip cell_value)) = false).
    { destruct (Py.contains "TOTAL AMOUNT" _) eqn:E; [|reflexivity].
      apply (contains_part "" "TOTAL" " AMOUNT") in E.
      rewrite (W "TOTAL" A) in E. discriminate. }
    rewrite TV, TA, (W "TOTAL" A), (W "AMOUNT" B), (W "VALUE" C). reflexivity. }
  rewrite K.
  unfold trailing_fallback.
  destruct (length row_values <=? col_idx + 3); [|reflexivity].
  destruct (looks_numeric (Py.strip cell_value)); [|reflexivity].
  destruct (to_float (Py.strip cell_value)) as [x|]; [|reflexivity].
  destruct (Py.gt_100 x); [|reflexivity].
  cbv zeta. cbn [existsb]. rewrite A, B, C.
  rewrite andb_false_r. reflexivity.
Qed.

Lemma scan_cells_without_total_words (row_values : Row) (cells : list string)
    (col_idx : nat) (s : Scan) :
  mentions_total row_values = false ->
  incl cells row_values ->
  scan_cells row_values col_idx cells s = s.
Proof.
  intros M. revert col_idx.
  induction cells as [|cell rest IH]; intros col_idx I; simpl; [reflexivity|].
  rewrite scan_cell_without_total_words;
    [| exact M | apply I; left; reflexivity].
  apply IH. intros c Hc. apply I. right. exact Hc.
Qed.

Lemma totals_without_total_words (f : Field) (df : Grid) (s : Scan) :
  f = TotalValue \/ f = GrossTotalAfterTax ->
  Forall (fun row => mentions_total row = false) df ->
  get_field f (result (scan_rows df s)) = get_field f (result s).
Proof.
  intros Hf H. revert s.
  induction H as [|row rest M _ IH]; intros s; simpl; [reflexivity|].
  rewrite IH. unfold scan_row.
  rewrite scan_cells_without_total_words; [| exact M | apply incl_refl].
  apply (extends_untouched column5_commit
           (fun g => g = InvoiceNumber \/ g = InvoiceDate)).
  - intros r c [_ K]. exact K.
  - intros [K | K]; destruct Hf as [-> | ->]; discriminate.
  - apply invoice_number_and_date_extends.
Qed.

(** X12.  A row in which none of the words [TOTAL], [AMOUNT] and [VALUE]
    occurs, in any case of the letters, adds nothing to the totals: the
    scan of its cells changes nothing; and a grid of such rows is
    scanned to a record whose [total_value] and [gross_total_after_tax]
    are empty, whatever numbers its cells hold. *)
Theorem rows_without_total_words (df : Grid) (file sheet : string) :
  Forall (fun row => mentions_total row = false) df ->
  (forall row_values s,
      In row_values df ->
      scan_row row_values s = invoice_number_and_date row_values s) /\
  exists s,
    locate_fields df (initial_result file sheet) = Ok s /\
    total_value (result s) = "" /\ gross_total_after_tax (result s) = "".
Proof.
  intros H. split.
  - intros row_values s I. rewrite Forall_forall in H.
    unfold scan_row. apply scan_cells_without_total_words;
      [apply H; exact I | apply incl_refl].
  - destruct (locate_fields_total df file sheet) as (s & L & _).
    exists s. split; [exact L|].
    set (r0 := initial_result file sheet) in *.
    assert (Kt : get_field TotalValue (result s)
                 = get_field TotalValue (result (scan_rows df (start r0))))
      by (apply (loop_fields_after_block TotalValue df _ s L);
          unfold loop_field; tauto).
    assert (Kg : get_field GrossTotalAfterTax (result s)
                 = get_field GrossTotalAfterTax (result (scan_rows df (start r0))))
      by (apply (loop_fields_after_block GrossTotalAfterTax df _ s L);
          unfold loop_field; tauto).
    rewrite (totals_without_total_words TotalValue df _ (or_introl eq_refl) H) in Kt.
    rewrite (totals_without_total_words GrossTotalAfterTax df _ (or_intror eq_refl) H)
      in Kg.
    simpl in Kt, Kg. auto.
Qed.

Lemma rows_without_total_words_witness :
  exists s,
    locate_fields [["Freight"; "1,250.00"; "18%"; "225.00"];
                   ["Packing"; "500.00"; "18%"; "90.00"]]
      (initial_result "april.xlsx" "01-07-2024") = Ok s /\
    total_value (result s) = "" /\ gross_total_after_tax (result s) = "".
Proof.
  apply (rows_without_total_words
           [["Freight"; "1,250.00"; "18%"; "225.00"];
            ["Packing"; "500.00"; "18%"; "90.00"]]).
  repeat constructor.
Defined.

(** ** Where the totals come from *)

Lemma gross_total_scan_from (row_values : Row) (window : list string) (s : Scan) :
  incl window row_values ->
  extends (total_from_row row_values) s (gross_total_scan window s).
Proof.
  induction window as [|cell rest IH]; intros I; simpl; [apply extends_refl|].
  assert (IH' : extends (total_from_row row_values) s (gross_total_scan rest s))
    by (apply IH; intros c Hc; apply I; right; exact Hc).
  destruct (looks_numeric (Py.strip cell)); [|exact IH'].
  destruct (to_float (Py.strip cell)); [|exact IH'].
  apply extends_assign. split; [right; reflexivity|].
  exists cell. split; [apply I; left; reflexivity | reflexivity].
Qed.

Lemma total_value_scan_from (row_values : Row) (window : list string) (s : Scan) :
  incl window row_values ->
  extends (total_from_row row_values) s (total_value_scan window s).
Proof.
  intros I. destruct (total_value_scan_cases window s) as [-> | (cell & H & -> & _)];
    [apply extends_refl|].
  apply extends_assign. split; [left; reflexivity|].
  exists cell. split; [apply I; exact H | reflexivity].
Qed.

Lemma in_firstn (n : nat) (l : list string) (c : string) :
  In c (firstn n l) -> In c l.
Proof.
  revert l. induction n as [|n IH]; intros l H; [contradiction|].
  destruct l as [|x l]; [contradiction|].
  destruct H as [-> | H]; [left; reflexivity | right; apply IH; exact H].
Qed.

Lemma in_skipn (n : nat) (l : list string) (c : string) :
  In c (skipn n l) -> In c l.
Proof.
  revert l. induction n as [|n IH]; intros l H; [exact H|].
  destruct l as [|x l]; [contradiction|]. right. apply IH. exact H.
Qed.

Lemma adjacent_incl (row_values : Row) (col_idx : nat) :
  incl (adjacent row_values col_idx) row_values.
Proof.
  unfold adjacent. intros c H.
  apply in_firstn in H. apply in_skipn in H. exact H.
Qed.

Lemma gross_total_label_from (row_values : Row) (col_idx : nat)
    (cell_str : string) (s : Scan) :
  extends (total_from_row row_values) s
    (gross_total_label row_values col_idx cell_str s).
Proof.
  unfold gross_total_label.
  destruct (Py.contains "GROSS TOTAL AFTER" _ && _);
    [apply gross_total_scan_from, adjacent_incl | apply extends_refl].
Qed.

Lemma total_keyword_loop_from (row_values : Row) (col_idx : nat)
    (keywords : list string) (cell_upper : string) (s : Scan) :
  extends (total_from_row row_values) s
    (total_keyword_loop keywords cell_upper (adjacent row_values col_idx) s).
Proof.
  rewrite total_keyword_loop_collapses.
  destruct (existsb _ _ && _);
    [apply total_value_scan_from, adjacent_incl | apply extends_refl].
Qed.

Lemma trailing_fallback_from (row_values : Row) (col_idx : nat)
    (cell_value : string) (s : Scan) :
  In cell_value row_values ->
  extends (total_from_row row_values) s
    (trailing_fallback row_values col_idx (Py.strip cell_value) s).
Proof.
  intros I. unfold trailing_fallback.
  destruct (length row_values <=? col_idx + 3); [|apply extends_refl].
  destruct (looks_numeric _); [|apply extends_refl].
  destruct (to_float _) as [x|]; [|apply extends_refl].
  destruct (Py.gt_100 x); [|apply extends_refl].
  cbv zeta.
  destruct (Py.contains "GROSS" _ && Py.contains "TOTAL" _ && _).
  - apply extends_assign. split; [right; reflexivity|].
    exists cell_value. auto.
  - destruct (existsb _ _ && _); [|apply extends_refl].
    apply extends_assign. split; [left; reflexivity|].
    exists cell_value. auto.
Qed.

Lemma scan_cell_from (row_values : Row) (col_idx : nat) (cell_value : string)
    (s : Scan) :
  In cell_value row_values ->
  extends (total_from_row row_values) s
    (scan_cell row_values col_idx cell_value s).
Proof.
  intros I. unfold scan_cell. cbv zeta.
  eapply extends_trans; [apply gross_total_label_from|].
  eapply extends_trans; [apply total_keyword_loop_from|].
  apply trailing_fallback_from. exact I.
Qed.

Lemma scan_cells_from (row_values : Row) (cells : list string) (col_idx : nat)
    (s : Scan) :
  incl cells row_values ->
  extends (total_from_row row_values) s
    (scan_cells row_values col_idx cells s).
Proof.
  revert col_idx s. induction cells as [|cell rest IH]; intros col_idx s I; simpl;
    [apply extends_refl|].
  eapply extends_trans.
  - apply scan_cell_from. apply I. left. reflexivity.
  - apply IH. intros c Hc. apply I. right. exact Hc.
Qed.

Lemma scan_rows_from (df rows : Grid) (s : Scan) :
  incl rows df ->
  extends (total_from_grid df) s (scan_rows rows s).
Proof.
  revert s. induction rows as [|row rest IH]; intros s I; simpl;
    [apply extends_refl|].
  eapply extends_trans; [|apply IH; intros r Hr; apply I; right; exact Hr].
  unfold scan_row. eapply extends_trans.
  - eapply extends_weaken; [|apply invoice_number_and_date_extends].
    intros r c [_ K] F. destruct K as [K | K], F as [F | F]; congruence.
  - eapply extends_weaken; [|apply (scan_cells_from row row); apply incl_refl].
    intros r c [_ (cell & Hc & E)] _. exists row, cell.
    split; [apply I; left; reflexivity | auto].
Qed.

Lemma locate_fields_from (df : Grid) (r : InvoiceRecord) (s : Scan) :
  locate_fields df r = Ok s ->
  extends (total_from_grid df) (start r) s.
Proof.
  intros L.
  pose proof (scan_rows_from df df (start r) (incl_refl df)) as E.
  destruct (locate_fields_cases df r s L) as [-> | (last_row & others & _ & ->)];
    [exact E|].
  eapply extends_trans; [exact E|].
  eapply extends_weaken;
    [|eapply extends_trans;
      [apply name_and_gstin_extends | apply vendor_and_po_extends]].
  intros r' c [_ K] F.
  destruct K as [K | [K | [K | [K | K]]]], F as [F | F]; congruence.
Qed.

(** The value of a field after a trace is the one before it or the text
    of an assignment of the trace. *)
Lemma replay_field_source (f : Field) (l : list Commit) (r : InvoiceRecord) :
  get_field f (replay l r) = get_field f r \/
  In (f, get_field f (replay l r)) l.
Proof.
  revert r. induction l as [|c l IH]; intros r; [left; reflexivity|].
  change (replay (c :: l) r) with (replay l (set_field (fst c) (snd c) r)).
  destruct (IH (set_field (fst c) (snd c) r)) as [E | I].
  - rewrite E, get_set_field.
    destruct (Field_eqb f (fst c)) eqn:Q; [|left; reflexivity].
    apply Field_eqb_eq in Q. right. left. destruct c; simpl in *. congruence.
  - right. right. exact I.
Qed.

(** X13.  The scan copies its totals: every text it assigns to
    [total_value] or [gross_total_after_tax] is the trimmed text of a
    cell of the grid, so each of the two fields of the record is empty
    or is such a text, commas and all. *)
Theorem totals_come_from_cells (df : Grid) (file sheet : string) :
  exists s,
    locate_fields df (initial_result file sheet) = Ok s /\
    (forall f v,
        In (f, v) (commits s) ->
        f = TotalValue \/ f = GrossTotalAfterTax ->
        exists row_values cell,
          In row_values df /\ In cell row_values /\ v = Py.strip cell) /\
    (total_value (result s) = "" \/
     exists row_values cell,
       In row_values df /\ In cell row_values /\
       total_value (result s) = Py.strip cell) /\
    (gross_total_after_tax (result s) = "" \/
     exists row_values cell,
       In row_values df /\ In cell row_values /\
       gross_total_after_tax (result s) = Py.strip cell).
Proof.
  destruct (locate_fields_total df file sheet) as (s & L & _).
  exists s. split; [exact L|].
  destruct (extends_from_start _ _ _ (locate_fields_from df _ s L)) as [R T].
  assert (A : forall f v,
             In (f, v) (commits s) ->
             f = TotalValue \/ f = GrossTotalAfterTax ->
             exists row_values cell,
               In row_values df /\ In cell row_values /\ v = Py.strip cell).
  { intros f v I F. destruct (trace_ok_In _ _ _ _ T I) as (r' & G).
    apply G. exact F. }
  split; [exact A|]. rewrite R. split.
  - destruct (replay_field_source TotalValue (commits s) (initial_result file sheet))
      as [E | I]; [left; exact E | right].
    apply (A TotalValue _ I). tauto.
  - destruct (replay_field_source GrossTotalAfterTax (commits s)
                (initial_result file sheet)) as [E | I]; [left; exact E | right].
    apply (A GrossTotalAfterTax _ I). tauto.
Qed.

Lemma totals_come_from_cells_witness :
  exists row_values cell,
    In row_values sample_invoice /\ In cell row_values /\
    "11,798.82" = Py.strip cell.
Proof.
  destruct (totals_come_from_cells sample_invoice "april.xlsx" "01-07-2024")
    as (s & L & A & _).
  vm_compute in L. injection L as <-.
  apply (A GrossTotalAfterTax "11,798.82").
  - simpl. tauto.
  - right. reflexivity.
Defined.

(** ** The window of a label *)

Lemma in_firstn_position (n : nat) (l : list string) (c : string) :
  In c (firstn n l) -> exists j, j < n /\ nth_error l j = Some c.
Proof.
  revert l. induction n as [|n IH]; intros l H; [contradiction|].
  destruct l as [|x l]; [contradiction|].
  destruct H as [-> | H].
  - exists 0. split; [lia | reflexivity].
  - destruct (IH l H) as (j & Hj & E). exists (S j). split; [lia | exact E].
Qed.

Lemma nth_error_after_skipn (k j : nat) (l : list string) :
  nth_error (skipn k l) j = nth_error l (k + j).
Proof.
  revert l. induction k as [|k IH]; intros l; [reflexivity|].
  destruct l as [|x l]; [destruct j; reflexivity | apply IH].
Qed.

Lemma adjacent_position (row_values : Row) (col_idx : nat) (cell : string) :
  In cell (adjacent row_values col_idx) ->
  exists i, col_idx < i <= col_idx + 3 /\ nth_error row_values i = Some cell.
Proof.
  unfold adjacent. intros H.
  destruct (in_firstn_position 3 _ _ H) as (j & Hj & E).
  rewrite nth_error_after_skipn in E.
  exists (col_idx + 1 + j). split; [lia | exact E].
Qed.

Lemma gross_total_scan_cases (window : list string) (s : Scan) :
  gross_total_scan window s = s \/
  exists cell,
    In cell window /\
    gross_total_scan window s = assign GrossTotalAfterTax (Py.strip cell) s.
Proof.
  induction window as [|cell rest IH]; simpl; [left; reflexivity|].
  assert (IH' : gross_total_scan rest s = s \/
                exists c, (cell = c \/ In c rest) /\
                  gross_total_scan rest s
                  = assign GrossTotalAfterTax (Py.strip c) s).
  { destruct IH as [E | (c & I & E)]; [left; exact E|].
    right. exists c. auto. }
  destruct (looks_numeric (Py.strip cell)); [|exact IH'].
  destruct (to_float (Py.strip cell)); [|exact IH'].
  right. exists cell. split; [left; reflexivity | reflexivity].
Qed.

(** X15.  A label reaches three cells and no further: the gross-total
    label of the cell in column [col_idx] assigns nothing, or it makes
    one assignment, of the trimmed text of a cell that stands one, two
    or three columns to its right in the same row; likewise the total
    keywords of the cell. *)
Theorem label_window (row_values : Row) (col_idx : nat) (cell_str : string)
    (s : Scan) :
  (gross_total_label row_values col_idx cell_str s = s \/
   exists i cell,
     col_idx < i <= col_idx + 3 /\ nth_error row_values i = Some cell /\
     gross_total_label row_values col_idx cell_str s
     = assign GrossTotalAfterTax (Py.strip cell) s) /\
  (total_keyword_loop total_keywords (Py.upper cell_str)
     (adjacent row_values col_idx) s = s \/
   exists i cell,
     col_idx < i <= col_idx + 3 /\ nth_error row_values i = Some cell /\
     total_keyword_loop total_keywords (Py.upper cell_str)
       (adjacent row_values col_idx) s
     = assign TotalValue (Py.strip cell) s).
Proof.
  split.
  - unfold gross_total_label.
    destruct (Py.contains "GROSS TOTAL AFTER" _ && _); [|left; reflexivity].
    destruct (gross_total_scan_cases (adjacent row_values col_idx) s)
      as [E | (cell & I & E)]; [left; exact E | right].
    destruct (adjacent_position _ _ _ I) as (i & Hi & N).
    exists i, cell. auto.
  - rewrite total_keyword_loop_collapses.
    destruct (existsb _ _ && _); [|left; reflexivity].
    destruct (total_value_scan_cases (adjacent row_values col_idx) s)
      as [E | (cell & I & E & _)]; [left; exact E | right].
    destruct (adjacent_position _ _ _ I) as (i & Hi & N).
    exists i, cell. auto.
Qed.

(** ** The totals of the record *)

(** X16.  In the record of a scan, a [total_value] that is not empty is
    a text [float] accepts without its commas, as a number above 100,
    and a [gross_total_after_tax] that is not empty is a text [float]
    accepts without its commas; both are longer than two characters. *)
Theorem record_totals_are_numbers (df : Grid) (file sheet : string) :
  exists s,
    locate_fields df (initial_result file sheet) = Ok s /\
    (total_value (result s) = "" \/
     (2 < String.length (total_value (result s)) /\
      exists x, to_float (total_value (result s)) = Some x /\
                Py.gt_100 x = true)) /\
    (gross_total_after_tax (result s) = "" \/
     (2 < String.length (gross_total_after_tax (result s)) /\
      exists x, to_float (gross_total_after_tax (result s)) = Some x)).
Proof.
  destruct (locate_fields_total df file sheet) as (s & L & _).
  exists s. split; [exact L|].
  destruct (scan_trace _ _ _ _ L) as [R T].
  assert (Len : forall v, looks_numeric v = true -> 2 < String.length v).
  { intros v H. unfold looks_numeric in H. apply andb_true_iff in H.
    destruct H as [_ H]. apply Nat.ltb_lt. exact H. }
  rewrite R. split.
  - destruct (replay_field_source TotalValue (commits s) (initial_result file sheet))
      as [E | I]; [left; exact E | right].
    destruct (trace_ok_In _ _ _ _ T I) as (r' & G).
    unfold commit_ok in G. simpl in G. destruct G as (_ & Ln & x & F & Gt).
    split; [apply Len; exact Ln | exists x; auto].
  - destruct (replay_field_source GrossTotalAfterTax (commits s)
                (initial_result file sheet)) as [E | I]; [left; exact E | right].
    destruct (trace_ok_In _ _ _ _ T I) as (r' & G).
    unfold commit_ok in G. simpl in G. destruct G as (Ln & x & F).
    split; [apply Len; exact Ln | exists x; exact F].
Qed.

(** ** The batch and its output workbook *)

Lemma summary_data_counts (lib : Library) (excel_files : list string)
    (summary : Summary) :
  summary_data excel_files (map (extract_invoice_data lib) excel_files)
  = Ok summary ->
  excel_files <> [] /\
  total_files_processed summary = Z.of_nat (length excel_files) /\
  (successful summary + failed summary = total_files_processed summary)%Z /\
  (0 <= failed summary)%Z /\
  (files_with_invoice_numbers summary <= successful summary)%Z /\
  (files_with_company_names summary <= successful summary)%Z /\
  (files_with_dates summary <= successful summary)%Z /\
  (files_with_total_values summary <= successful summary)%Z /\
  (files_with_gross_total_after_tax summary <= successful summary)%Z.
Proof.
  unfold summary_data.
  destruct (map (extract_invoice_data lib) excel_files) as [|r rs] eqn:E;
    [discriminate|].
  intros H. injection H as <-. rewrite <- E.
  cbn [total_files_processed successful failed
    files_with_invoice_numbers files_with_company_names files_with_dates
    files_with_total_values files_with_gross_total_after_tax].
  pose proof (successful_extractions_le
                (map (extract_invoice_data lib) excel_files)) as L.
  rewrite length_map in L.
  pose proof (filled_le_successful lib excel_files InvoiceNumber).
  pose proof (filled_le_successful lib excel_files CompanyName).
  pose proof (filled_le_successful lib excel_files InvoiceDate).
  pose proof (filled_le_successful lib excel_files TotalValue).
  pose proof (filled_le_successful lib excel_files GrossTotalAfterTax).
  split; [intros ->; discriminate|]. repeat split; lia.
Qed.

Lemma process_all_invoices_returns (lib : Library) (out : Writer)
    (excel_files : list string) (results : list InvoiceRecord)
    (summary : Summary) :
  process_all_invoices lib out excel_files = Ok (results, summary) <->
  open_writer out = Ok tt /\ close_writer out = Ok tt /\
  write_results out (map (extract_invoice_data lib) excel_files) = Ok tt /\
  summary_data excel_files (map (extract_invoice_data lib) excel_files)
  = Ok summary /\
  write_summary out summary = Ok tt /\
  results = map (extract_invoice_data lib) excel_files.
Proof.
  unfold process_all_invoices, with_writer. cbv zeta. split.
  - destruct (open_writer out) as [[]|]; [|discriminate].
    destruct (close_writer out) as [[]|]; [|discriminate].
    destruct (write_results out _) as [[]|]; [|discriminate]. simpl.
    destruct (summary_data excel_files _) as [sm|]; [|discriminate]. simpl.
    destruct (write_summary out sm) as [[]|] eqn:W; [|discriminate]. simpl.
    intros H. injection H as <- <-. repeat split; auto.
  - intros (O & C & R & S & W & ->). rewrite O, C, R. simpl.
    rewrite S. simpl. rewrite W. reflexivity.
Qed.

(** X4.  When the batch function returns, it returns one record per
    file, in the order of the files, and the counts of its summary are
    consistent: successes and failures add up to the number of files,
    the number of failures is not negative, and each count of files with
    a field filled is at most the number of successes. *)
Theorem batch_counts (lib : Library) (out : Writer) (excel_files : list string)
    (results : list InvoiceRecord) (summary : Summary) :
  process_all_invoices lib out excel_files = Ok (results, summary) ->
  results = map (extract_invoice_data lib) excel_files /\
  total_files_processed summary = Z.of_nat (length excel_files) /\
  (successful summary + failed summary = total_files_processed summary)%Z /\
  (0 <= failed summary)%Z /\
  (files_with_invoice_numbers summary <= successful summary)%Z /\
  (files_with_company_names summary <= successful summary)%Z /\
  (files_with_dates summary <= successful summary)%Z /\
  (files_with_total_values summary <= successful summary)%Z /\
  (files_with_gross_total_after_tax summary <= successful summary)%Z.
Proof.
  intros H. apply process_all_invoices_returns in H.
  destruct H as (_ & _ & _ & S & _ & R).
  split; [exact R|]. apply (summary_data_counts lib) in S.
  destruct S as [_ S]. exact S.
Qed.

Lemma batch_counts_witness :
  (successful
     {| total_files_processed := 3; successful := 1; failed := 2;
        files_with_invoice_numbers := 1; files_with_company_names := 0;
        files_with_dates := 1; files_with_total_values := 1;
        files_with_gross_total_after_tax := 1 |}
   + failed
       {| total_files_processed := 3; successful := 1; failed := 2;
          files_with_invoice_numbers := 1; files_with_company_names := 0;
          files_with_dates := 1; files_with_total_values := 1;
          files_with_gross_total_after_tax := 1 |}
   = 3)%Z.
Proof.
  assert (P : process_all_invoices sample_directory accepting_writer
                ["inv/april.xlsx"; "inv/may.xlsx"; "inv/june.xlsx"]
              = Ok (map (extract_invoice_data sample_directory)
                      ["inv/april.xlsx"; "inv/may.xlsx"; "inv/june.xlsx"],
                    {| total_files_processed := 3; successful := 1; failed := 2;
                       files_with_invoice_numbers := 1;
                       files_with_company_names := 0;
                       files_with_dates := 1; files_with_total_values := 1;
                       files_with_gross_total_after_tax := 1 |}))
    by (vm_compute; reflexivity).
  destruct (batch_counts _ _ _ _ _ P) as (_ & T & S & _).
  rewrite S, T. reflexivity.
Defined.



(** A batch whose records the workbook refuses does not return. *)
Example refused_batch_raises :
  process_all_invoices sample_directory refusing_writer ["inv/april.xlsx"]
  = Raise "cannot be used in worksheets.".
Proof. reflexivity. Qed.

(** ** First match wins, where the code tests the field *)




Lemma total_value_kept (s s' : Scan) :
  extends commit_ok s s' ->
  total_value (result s) <> "" ->
  total_value (result s') = total_value (result s).
Proof.
  intros (l & _ & R & T) N. rewrite R.
  apply (guarded_field_kept TotalValue); [|exact N].
  eapply trace_ok_weaken; [|exact T].
  intros r c H. apply commit_ok_guards_total_value. exact H.
Qed.







(** ** One pass over the cells of a row *)

(** The loop over the cells is one pass, cell after cell from the left,
    with the column index of each cell. *)
Lemma scan_cells_as_fold (row_values : Row) (cells : list string)
    (col_idx : nat) (s : Scan) :
  scan_cells row_values col_idx cells s
  = fold_left
      (fun acc ic =>
         trailing_fallback row_values (fst ic) (Py.strip (snd ic))
           (total_keyword_loop total_keywords (Py.upper (Py.strip (snd ic)))
              (adjacent row_values (fst ic))
              (gross_total_label row_values (fst ic) (Py.strip (snd ic)) acc)))
      (combine (seq col_idx (length cells)) cells) s.
Proof.
  revert col_idx s. induction cells as [|cell rest IH]; intros col_idx s;
    [reflexivity|].
  cbn [scan_cells length seq combine fold_left]. rewrite IH. reflexivity.
Qed.

(** The scan after a gross-total label does not read the record: from
    two states it assigns nothing, or the same text. *)
Lemma gross_total_scan_any (window : list string) (s t : Scan) :
  (gross_total_scan window s = s /\ gross_total_scan window t = t) \/
  exists v,
    v <> "" /\
    gross_total_scan window s = assign GrossTotalAfterTax v s /\
    gross_total_scan window t = assign GrossTotalAfterTax v t.
Proof.
  induction window as [|cell rest IH]; simpl; [left; auto|].
  destruct (looks_numeric (Py.strip cell)) eqn:Ln; [|exact IH].
  destruct (to_float (Py.strip cell)); [|exact IH].
  right. exists (Py.strip cell). split; [|auto].
  intros Z. rewrite Z in Ln. discriminate.
Qed.

Lemma total_keyword_loop_keeps_gross (keywords : list string)
    (cell_upper : string) (window : list string) (s : Scan) :
  gross_total_after_tax
    (result (total_keyword_loop keywords cell_upper window s))
  = gross_total_after_tax (result s).
Proof.
  rewrite total_keyword_loop_collapses.
  destruct (existsb _ _ && _); [|reflexivity].
  destruct (total_value_scan_cases window s) as [-> | (cell & _ & -> & _)];
    [reflexivity|].
  apply (get_set_other GrossTotalAfterTax TotalValue). discriminate.
Qed.

(** Cell by cell, the gross total of the code follows the gross total of
    the label heuristics alone as soon as these have one. *)
Lemma gross_label_kept_cells (row_values : Row) (cells : list string)
    (col_idx : nat) (code labels : Scan) :
  (gross_total_after_tax (result labels) <> "" ->
   gross_total_after_tax (result code) = gross_total_after_tax (result labels)) ->
  gross_total_after_tax
    (result (spec_label_cells row_values col_idx cells labels)) <> "" ->
  gross_total_after_tax (result (scan_cells row_values col_idx cells code))
  = gross_total_after_tax
      (result (spec_label_cells row_values col_idx cells labels)).
Proof.
  revert col_idx code labels.
  induction cells as [|cell rest IH]; intros col_idx code labels R;
    [exact R|].
  cbn [scan_cells spec_label_cells]. cbv zeta. apply IH. clear IH.
  unfold scan_cell. cbv zeta.
  rewrite (total_keyword_loop_keeps_gross total_keywords
             (Py.upper (Py.strip cell)) (adjacent row_values col_idx)
             (gross_total_label row_values col_idx (Py.strip cell) labels)).
  set (K := total_keyword_loop total_keywords (Py.upper (Py.strip cell))
              (adjacent row_values col_idx)).
  intros N.
  assert (E : gross_total_after_tax
                (result (K (gross_total_label row_values col_idx
                              (Py.strip cell) code)))
              = gross_total_after_tax
                  (result (gross_total_label row_values col_idx
                             (Py.strip cell) labels))).
  { subst K. rewrite total_keyword_loop_keeps_gross.
    revert N. unfold gross_total_label.
    destruct (Py.contains "GROSS TOTAL AFTER" _ && _); [|exact R].
    destruct (gross_total_scan_any (adjacent row_values col_idx) code labels)
      as [[-> ->] | (v & Nv & -> & ->)]; [exact R|].
    intros _.
    rewrite (get_set_field GrossTotalAfterTax GrossTotalAfterTax v (result code)
             : gross_total_after_tax (result (assign GrossTotalAfterTax v code)) = _).
    rewrite (get_set_field GrossTotalAfterTax GrossTotalAfterTax v (result labels)
             : gross_total_after_tax (result (assign GrossTotalAfterTax v labels)) = _).
    reflexivity. }
  destruct (trailing_fallback_keeps row_values col_idx (Py.strip cell)
              (K (gross_total_label row_values col_idx (Py.strip cell) code)))
    as [Kg _].
  rewrite Kg; [exact E | rewrite E; exact N].
Qed.

(** C5, amended.  A row is scanned in one pass over its cells from the
    left; at each cell the gross-total label, then the total keywords,
    then the fall-back of that cell are evaluated.  The fall-back
    assigns only to a field that is empty.  Hence a label-based
    candidate for [gross_total_after_tax] in the row always ends in that
    field, the fall-back never putting another value there; and a
    [total_value] filled at some cell is kept by the rest of the row,
    be it the label's candidate or the fall-back's. *)
Theorem fallback_fills_only_empty_fields (row_values : Row) (s : Scan) :
  scan_row row_values s
  = fold_left
      (fun acc ic =>
         trailing_fallback row_values (fst ic) (Py.strip (snd ic))
           (total_keyword_loop total_keywords (Py.upper (Py.strip (snd ic)))
              (adjacent row_values (fst ic))
              (gross_total_label row_values (fst ic) (Py.strip (snd ic)) acc)))
      (combine (seq 0 (length row_values)) row_values)
      (invoice_number_and_date row_values s) /\
  (forall col_idx cell_str s',
      gross_total_after_tax (result s') <> "" ->
      gross_total_after_tax
        (result (trailing_fallback row_values col_idx cell_str s'))
      = gross_total_after_tax (result s')) /\
  (forall col_idx cell_str s',
      total_value (result s') <> "" ->
      total_value (result (trailing_fallback row_values col_idx cell_str s'))
      = total_value (result s')) /\
  (gross_total_after_tax (result (spec_label_pass row_values s)) <> "" ->
   gross_total_after_tax (result (scan_row row_values s))
   = gross_total_after_tax (result (spec_label_pass row_values s))) /\
  (forall col_idx cells s',
      total_value (result s') <> "" ->
      total_value (result (scan_cells row_values col_idx cells s'))
      = total_value (result s')).
Proof.
  split; [|split; [|split; [|split]]].
  - unfold scan_row. apply scan_cells_as_fold.
  - intros col_idx cell_str s' N. apply trailing_fallback_keeps. exact N.
  - intros col_idx cell_str s' N. apply trailing_fallback_keeps. exact N.
  - unfold scan_row, spec_label_pass. apply gross_label_kept_cells.
    intros _.
    apply (extends_untouched column5_commit
             (fun g => g = InvoiceNumber \/ g = InvoiceDate) GrossTotalAfterTax).
    + intros r c [_ K]. exact K.
    + intros [K | K]; discriminate.
    + apply invoice_number_and_date_extends.
  - intros col_idx cells s' N. apply total_value_kept; [|exact N].
    eapply extends_weaken; [apply totals_commit_ok | apply scan_cells_extends].
Qed.

Lemma fallback_fills_only_empty_fields_witness :
  gross_total_after_tax
    (result (scan_row number_before_gross_label (start (initial_result "" ""))))
  = "123456.00" /\
  total_value
    (result (trailing_fallback number_before_label 2 "9999.00"
               (assign TotalValue "500.00" (start (initial_result "" "")))))
  = "500.00".
Proof.
  split.
  - destruct (fallback_fills_only_empty_fields number_before_gross_label
                (start (initial_result "" ""))) as (_ & _ & _ & G & _).
    rewrite G; [reflexivity | vm_compute; discriminate].
  - destruct (fallback_fills_only_empty_fields number_before_label
                (start (initial_result "" ""))) as (_ & _ & K & _).
    apply (K 2 "9999.00" (assign TotalValue "500.00" (start (initial_result "" "")))).
    simpl. discriminate.
Defined.
